(** * sa5g-go-usvc-k8s: the Preamble endpoint pipeline

    A shallow embedding of the Go sources
      - pkg/preamblesvc/endpoints/requests.go   (PreambleRequest, validate)
      - the endpoints package's response type   (PreambleResponse)
      - pkg/gnodeb/endpoints/endpoints.go       (New, MakePreambleEndpoint,
                                                 Endpoints.Preamble)
      - pkg/gnodeb/service/service.go           (stubPreamblesvcService)
      - pkg/gnodeb/service/logging.go           (loggingMiddleware)
      - the gRPC transport                      (grpcEncodeError)

    Go values are modelled as follows.  An [int64] is a [Z]; no function of
    the pipeline computes with it, it is only passed on.  An [error] is an
    optional error value, [None] being Go's nil.  An [interface{}] is the
    tagged union [any].  A Go function with effects is a function from the
    world before the call to an outcome and the world after it; a panic is
    an outcome of its own, so that deferred calls can be modelled. *)

From Stdlib Require Import ZArith List String Bool Lia.
Import ListNotations.
Local Open Scope string_scope.
Local Open Scope Z_scope.

Set Implicit Arguments.

(** ** Errors and gRPC statuses *)

Module codes.
(** google.golang.org/grpc/codes: the canonical status codes. *)
Inductive Code :=
| OK | Canceled | Unknown | InvalidArgument | DeadlineExceeded | NotFound
| AlreadyExists | PermissionDenied | ResourceExhausted | FailedPrecondition
| Aborted | OutOfRange | Unimplemented | Internal | Unavailable | DataLoss
| Unauthenticated.

Definition eqb (a b : Code) : bool :=
  match a, b with
  | OK, OK | Canceled, Canceled | Unknown, Unknown
  | InvalidArgument, InvalidArgument | DeadlineExceeded, DeadlineExceeded
  | NotFound, NotFound | AlreadyExists, AlreadyExists
  | PermissionDenied, PermissionDenied
  | ResourceExhausted, ResourceExhausted
  | FailedPrecondition, FailedPrecondition | Aborted, Aborted
  | OutOfRange, OutOfRange | Unimplemented, Unimplemented
  | Internal, Internal | Unavailable, Unavailable | DataLoss, DataLoss
  | Unauthenticated, Unauthenticated => true
  | _, _ => false
  end.

Definition String (c : Code) : string :=
  match c with
  | OK => "OK" | Canceled => "Canceled" | Unknown => "Unknown"
  | InvalidArgument => "InvalidArgument"
  | DeadlineExceeded => "DeadlineExceeded" | NotFound => "NotFound"
  | AlreadyExists => "AlreadyExists"
  | PermissionDenied => "PermissionDenied"
  | ResourceExhausted => "ResourceExhausted"
  | FailedPrecondition => "FailedPrecondition" | Aborted => "Aborted"
  | OutOfRange => "OutOfRange" | Unimplemented => "Unimplemented"
  | Internal => "Internal" | Unavailable => "Unavailable"
  | DataLoss => "DataLoss" | Unauthenticated => "Unauthenticated"
  end.
End codes.

(** A gRPC status: a code and a message. *)
Record Status := { st_code : codes.Code; st_message : string }.

(** The dynamic error values the pipeline can see.  [errorString] is what
    errors.New builds (no GRPCStatus method).  [statusError] is the error
    status.Error builds from a code and a message: a status error with
    nothing else in it.  [otherStatusError] is any other error value with
    a GRPCStatus method, a status error whose status carries details or
    an error of a type of its own: [text] is what its Error method
    returns and [st] the code and the message of the status it reports,
    which is all that grpcEncodeError reads of it. *)
Inductive error_value :=
| errorString (s : string)
| statusError (st : Status)
| otherStatusError (text : string) (st : Status).

(** Go's [error] interface: nil or an error value. *)
Definition error := option error_value.

Definition error_Error (e : error_value) : string :=
  match e with
  | errorString s => s
  | statusError st =>
      "rpc error: code = " ++ codes.String (st_code st)
        ++ " desc = " ++ st_message st
  | otherStatusError text _ => text
  end.

Module errors.
Definition New (s : string) : error := Some (errorString s).
End errors.

Module status.
(** google.golang.org/grpc/status, the two functions grpcEncodeError
    calls.  [Error c msg] is [New(c, msg).Err()], which is nil for the
    code OK.  [FromError] is only called on a non-nil error there. *)
Definition Error (c : codes.Code) (msg : string) : error :=
  if codes.eqb c codes.OK then None
  else Some (statusError {| st_code := c; st_message := msg |}).

Definition FromError (err : error_value) : Status * bool :=
  match err with
  | statusError st => (st, true)
  | otherStatusError _ st => (st, true)
  | errorString _ =>
      ({| st_code := codes.Unknown; st_message := error_Error err |}, false)
  end.
End status.

(** transport: grpcEncodeError. *)
Definition grpcEncodeError (err : error) : error :=
  match err with
  | None => None
  | Some e =>
      let '(st, ok) := status.FromError e in
      if ok then status.Error (st_code st) (st_message st)
      else status.Error codes.Internal "internal server error"
  end.

(** The wire view of an error: what a peer reads off it. *)
Definition wire_status (err : error) : option Status :=
  match err with
  | None => None
  | Some e => Some (fst (status.FromError e))
  end.

(** ** Values that cross the endpoint boundary *)

Definition int64 := Z.

(** A point in time and a duration, both in nanoseconds. *)
Definition Time := Z.
Definition Duration := Z.
Definition Second : Duration := 1000000000.

(** context.Context: the values attached to it (the tracing middlewares
    attach their span); the pipeline hands it on and reads nothing else. *)
Definition Context := list (string * string).

(** requests.go *)
Record PreambleRequest := { Msg : int64 }.

(** The [Request] interface of requests.go: one method, [validate]. *)
Class Request (R : Type) := { validate : R -> error }.

(** [func (r PreambleRequest) validate() error { return nil }] *)
#[export] Instance PreambleRequest_Request : Request PreambleRequest :=
  {| validate := fun _ => None |}.

(** The response type of the endpoints package. *)
Record PreambleResponse := { Rs : int64; Err : error }.

(** net/http: [StatusOK] and [Header] (a map from a name to its values,
    kept as an association list; the code only builds the empty one). *)
Module http.
Definition StatusOK : Z := 200.
Definition Header := list (string * list string).
End http.

Definition PreambleResponse_StatusCode (r : PreambleResponse) : Z :=
  http.StatusOK.

Definition PreambleResponse_Headers (r : PreambleResponse) : http.Header :=
  [].

(** [interface{}] as the endpoints see it: the dynamic type of a request
    or a response. *)
Inductive any :=
| any_nil
| any_PreambleRequest (r : PreambleRequest)
| any_PreambleResponse (r : PreambleResponse)
| any_other (type_name : string).

(** ** Middleware state: the token bucket and the circuit breaker *)

Module rate.
(** Modelled from the spec: golang.org/x/time/rate is a dependency, its
    Limiter is not under src/.  The spec calls it a token bucket with a
    fixed refill rate and a fixed burst, asked without blocking.  Tokens
    are counted in units of 1/[lim_every] of a token, so that one
    nanosecond refills one unit and one token costs [lim_every] units;
    the bucket starts full. *)
Record Limiter := {
  lim_every : Duration;   (* rate.Every(d): one token per d *)
  lim_burst : Z;
  lim_tokens : Z;
  lim_last : Time
}.

Definition Every (d : Duration) : Duration := d.

Definition NewLimiter (every : Duration) (burst : Z) : Limiter :=
  {| lim_every := every; lim_burst := burst;
     lim_tokens := burst * every; lim_last := 0 |}.

Definition advance (lim : Limiter) (now : Time) : Time * Z :=
  let last := Z.min (lim_last lim) now in
  let tokens := lim_tokens lim + (now - last) in
  (last, Z.min tokens (lim_burst lim * lim_every lim)).

(** [Allow] at time [now]: take one token if there is one. *)
Definition Allow (lim : Limiter) (now : Time) : bool * Limiter :=
  let '(last, tokens) := advance lim now in
  let tokens := tokens - lim_every lim in
  if 0 <=? tokens
  then (true, {| lim_every := lim_every lim; lim_burst := lim_burst lim;
                 lim_tokens := tokens; lim_last := now |})
  else (false, {| lim_every := lim_every lim; lim_burst := lim_burst lim;
                  lim_tokens := lim_tokens lim; lim_last := last |}).
End rate.

Module gobreaker.
(** Modelled from the spec: github.com/sony/gobreaker is a dependency,
    its CircuitBreaker is not under src/.  The spec gives the states
    Closed, Open and HalfOpen, the trip after a run of consecutive
    failures, the immediate rejection while Open during the cooldown,
    and the trial calls of HalfOpen whose outcome closes or re-opens
    the breaker.  The definitions below follow the library's own
    decomposition (Counts, generations, expiry) and its defaults for
    the settings the code leaves at zero: one trial call, a cooldown of
    60 seconds, and a trip when more than 5 failures are consecutive. *)
Inductive State := StateClosed | StateHalfOpen | StateOpen.

Definition u32 (x : Z) : Z := x mod 2 ^ 32.
Definition u64 (x : Z) : Z := x mod 2 ^ 64.

Record Counts := {
  Requests : Z;
  TotalSuccesses : Z;
  TotalFailures : Z;
  ConsecutiveSuccesses : Z;
  ConsecutiveFailures : Z
}.

Definition Counts_clear : Counts :=
  {| Requests := 0; TotalSuccesses := 0; TotalFailures := 0;
     ConsecutiveSuccesses := 0; ConsecutiveFailures := 0 |}.

Definition Counts_onRequest (c : Counts) : Counts :=
  {| Requests := u32 (Requests c + 1);
     TotalSuccesses := TotalSuccesses c;
     TotalFailures := TotalFailures c;
     ConsecutiveSuccesses := ConsecutiveSuccesses c;
     ConsecutiveFailures := ConsecutiveFailures c |}.

Definition Counts_onSuccess (c : Counts) : Counts :=
  {| Requests := Requests c;
     TotalSuccesses := u32 (TotalSuccesses c + 1);
     TotalFailures := TotalFailures c;
     ConsecutiveSuccesses := u32 (ConsecutiveSuccesses c + 1);
     ConsecutiveFailures := 0 |}.

Definition Counts_onFailure (c : Counts) : Counts :=
  {| Requests := Requests c;
     TotalSuccesses := TotalSuccesses c;
     TotalFailures := u32 (TotalFailures c + 1);
     ConsecutiveSuccesses := 0;
     ConsecutiveFailures := u32 (ConsecutiveFailures c + 1) |}.

(** The settings the code sets; a zero field asks for the default. *)
Record Settings := {
  Name : string;
  MaxRequests : Z;
  Interval : Duration;
  Timeout : Duration;
  ReadyToTrip : option (Counts -> bool)
}.

Definition defaultTimeout : Duration := 60 * Second.

Definition defaultReadyToTrip (c : Counts) : bool :=
  5 <? ConsecutiveFailures c.

Record CircuitBreaker := {
  name : string;
  maxRequests : Z;
  interval : Duration;
  timeout : Duration;
  readyToTrip : Counts -> bool;
  state : State;
  generation : Z;
  counts : Counts;
  expiry : option Time          (* None: the zero Time *)
}.

Definition State_eqb (a b : State) : bool :=
  match a, b with
  | StateClosed, StateClosed | StateHalfOpen, StateHalfOpen
  | StateOpen, StateOpen => true
  | _, _ => false
  end.

Definition toNewGeneration (cb : CircuitBreaker) (now : Time)
  : CircuitBreaker :=
  {| name := name cb; maxRequests := maxRequests cb;
     interval := interval cb; timeout := timeout cb;
     readyToTrip := readyToTrip cb;
     state := state cb;
     generation := u64 (generation cb + 1);
     counts := Counts_clear;
     expiry :=
       match state cb with
       | StateClosed =>
           if interval cb =? 0 then None else Some (now + interval cb)
       | StateOpen => Some (now + timeout cb)
       | StateHalfOpen => None
       end |}.

Definition with_state (cb : CircuitBreaker) (s : State) : CircuitBreaker :=
  {| name := name cb; maxRequests := maxRequests cb;
     interval := interval cb; timeout := timeout cb;
     readyToTrip := readyToTrip cb;
     state := s; generation := generation cb;
     counts := counts cb; expiry := expiry cb |}.

Definition with_counts (cb : CircuitBreaker) (c : Counts) : CircuitBreaker :=
  {| name := name cb; maxRequests := maxRequests cb;
     interval := interval cb; timeout := timeout cb;
     readyToTrip := readyToTrip cb;
     state := state cb; generation := generation cb;
     counts := c; expiry := expiry cb |}.

Definition setState (cb : CircuitBreaker) (s : State) (now : Time)
  : CircuitBreaker :=
  if State_eqb (state cb) s then cb
  else toNewGeneration (with_state cb s) now.

Definition NewCircuitBreaker (st : Settings) (now : Time) : CircuitBreaker :=
  toNewGeneration
    {| name := Name st;
       maxRequests := if MaxRequests st =? 0 then 1 else MaxRequests st;
       interval := if Interval st <=? 0 then 0 else Interval st;
       timeout := if Timeout st <=? 0 then defaultTimeout else Timeout st;
       readyToTrip :=
         match ReadyToTrip st with
         | None => defaultReadyToTrip
         | Some f => f
         end;
       state := StateClosed; generation := 0;
       counts := Counts_clear; expiry := None |} now.

(** [t.Before(now)]; the zero Time is before every instant. *)
Definition Before (t : option Time) (now : Time) : bool :=
  match t with
  | None => true
  | Some t => t <? now
  end.

Definition IsZero (t : option Time) : bool :=
  match t with None => true | Some _ => false end.

Definition currentState (cb : CircuitBreaker) (now : Time) : CircuitBreaker :=
  match state cb with
  | StateClosed =>
      if negb (IsZero (expiry cb)) && Before (expiry cb) now
      then toNewGeneration cb now else cb
  | StateOpen =>
      if Before (expiry cb) now then setState cb StateHalfOpen now else cb
  | StateHalfOpen => cb
  end.

Definition ErrTooManyRequests : error := errors.New "too many requests".
Definition ErrOpenState : error := errors.New "circuit breaker is open".

Definition beforeRequest (cb : CircuitBreaker) (now : Time)
  : (Z * error) * CircuitBreaker :=
  let cb := currentState cb now in
  match state cb with
  | StateOpen => ((generation cb, ErrOpenState), cb)
  | StateHalfOpen =>
      if maxRequests cb <=? Requests (counts cb)
      then ((generation cb, ErrTooManyRequests), cb)
      else ((generation cb, None),
            with_counts cb (Counts_onRequest (counts cb)))
  | StateClosed =>
      ((generation cb, None), with_counts cb (Counts_onRequest (counts cb)))
  end.

Definition onSuccess (cb : CircuitBreaker) (now : Time) : CircuitBreaker :=
  match state cb with
  | StateClosed => with_counts cb (Counts_onSuccess (counts cb))
  | StateHalfOpen =>
      let cb := with_counts cb (Counts_onSuccess (counts cb)) in
      if maxRequests cb <=? ConsecutiveSuccesses (counts cb)
      then setState cb StateClosed now else cb
  | StateOpen => cb
  end.

Definition onFailure (cb : CircuitBreaker) (now : Time) : CircuitBreaker :=
  match state cb with
  | StateClosed =>
      let cb := with_counts cb (Counts_onFailure (counts cb)) in
      if readyToTrip cb (counts cb) then setState cb StateOpen now else cb
  | StateHalfOpen => setState cb StateOpen now
  | StateOpen => cb
  end.

Definition afterRequest (cb : CircuitBreaker) (before : Z) (success : bool)
    (now : Time) : CircuitBreaker :=
  let cb := currentState cb now in
  if negb (generation cb =? before) then cb
  else if success then onSuccess cb now else onFailure cb now.
End gobreaker.

(** ** The world a call runs in *)

(** What a logger is given as a value. *)
Inductive LogValue :=
| LStr (s : string)
| LInt (n : Z)
| LErr (e : error)
| LDur (d : Duration).

(** log.Logger: the key/value pairs it prepends to every entry
    (log.With adds to them). *)
Definition Logger := list (string * LogValue).

(** A tracer handle, known by its name. *)
Definition Tracer := string.

(** What a call leaves behind, in the order it happens.  [EvServiceCall]
    is the call counter of the spec: it is recorded at the one place where
    an endpoint calls the Service. *)
Inductive Event :=
| EvServiceCall (ctx : Context) (msg : int64)
| EvLog (keyvals : list (string * LogValue))
| EvSpanStart (tracer : Tracer) (operation : string)
| EvSpanFinish (tracer : Tracer) (operation : string).

(** The state shared by the calls of one wired endpoint: the clock, the
    limiter and the breaker its middlewares captured, the events so far,
    and the private state of the Service. *)
Record World (S : Type) := {
  clock : Time;
  limiter : rate.Limiter;
  breaker : gobreaker.CircuitBreaker;
  events : list Event;
  svc_state : S
}.

(** The result of running Go code: it returns, or it panics. *)
Inductive outcome (A : Type) :=
| Returned (a : A)
| Panicked (reason : string).
Arguments Panicked {A} reason.

Section Pipeline.
Context {S : Type}.

Definition set_limiter (l : rate.Limiter) (w : World S) : World S :=
  {| clock := clock w; limiter := l; breaker := breaker w;
     events := events w; svc_state := svc_state w |}.

Definition set_breaker (b : gobreaker.CircuitBreaker) (w : World S)
  : World S :=
  {| clock := clock w; limiter := limiter w; breaker := b;
     events := events w; svc_state := svc_state w |}.

Definition set_svc_state (s : S) (w : World S) : World S :=
  {| clock := clock w; limiter := limiter w; breaker := breaker w;
     events := events w; svc_state := s |}.

Definition set_clock (t : Time) (w : World S) : World S :=
  {| clock := t; limiter := limiter w; breaker := breaker w;
     events := events w; svc_state := svc_state w |}.

Definition record (e : Event) (w : World S) : World S :=
  {| clock := clock w; limiter := limiter w; breaker := breaker w;
     events := events w ++ [e]; svc_state := svc_state w |}.

(** Go code with effects. *)
Definition M (A : Type) : Type := World S -> outcome A * World S.

Definition ret {A} (a : A) : M A := fun w => (Returned a, w).

Definition bind {A B} (m : M A) (k : A -> M B) : M B :=
  fun w =>
    match m w with
    | (Returned a, w') => k a w'
    | (Panicked r, w') => (Panicked r, w')
    end.

Definition panic {A} (reason : string) : M A := fun w => (Panicked reason, w).

(** [defer f(...); body]: [f] runs when [body] is left, by a return or
    by a panic; it sees the named results, which a panic leaves unset. *)
Definition defer_ {A} (body : M A) (deferred : option A -> World S -> World S)
  : M A :=
  fun w =>
    match body w with
    | (Returned a, w') => (Returned a, deferred (Some a) w')
    | (Panicked r, w') => (Panicked r, deferred None w')
    end.

(** The Service interface of service.go: one method, Preamble. *)
Definition PreamblesvcService : Type := Context -> int64 -> M (int64 * error).

(** endpoint.Endpoint and endpoint.Middleware of go-kit. *)
Definition Endpoint : Type := Context -> any -> M (any * error).
Definition Middleware : Type := Endpoint -> Endpoint.

(** A Service that keeps to its own state: it reads and writes
    [svc_state] only. *)
Definition pure_service (f : Context -> int64 -> S -> (int64 * error) * S)
  : PreamblesvcService :=
  fun ctx msg w =>
    let '(r, s') := f ctx msg (svc_state w) in
    (Returned r, set_svc_state s' w).

(** The one place where an endpoint calls the Service. *)
Definition invoke (svc : PreamblesvcService) (ctx : Context) (msg : int64)
  : M (int64 * error) :=
  fun w => svc ctx msg (record (EvServiceCall ctx msg) w).

(** How often the Service was called. *)
Definition service_calls (w : World S) : nat :=
  List.length
    (filter (fun e => match e with EvServiceCall _ _ => true | _ => false end)
            (events w)).

(** How many log entries were written. *)
Definition log_entries (w : World S) : list (list (string * LogValue)) :=
  flat_map (fun e => match e with EvLog kv => [kv] | _ => [] end) (events w).
End Pipeline.

Declare Scope go_scope.
Notation "x <- m ;; k" := (bind m (fun x => k))
  (at level 61, m at next level, right associativity) : go_scope.
Notation "' p <- m ;; k" := (bind m (fun x => match x with p => k end))
  (at level 61, p pattern, m at next level, right associativity) : go_scope.
Local Open Scope go_scope.

Section Service.
Context {S : Type}.

(** service.go: the business logic of Preamble.
    [return msg, err] with [err] the unassigned named result. *)
Definition stubPreamblesvcService_Preamble : @PreamblesvcService S :=
  fun ctx msg =>
    let err : error := None in
    ret (msg, err).
End Service.

Section Endpoints.
Context {S : Type}.

(** The type assertions [request.(PreambleRequest)] and
    [resp.(PreambleResponse)]: a value of another dynamic type panics. *)
Definition assert_PreambleRequest (request : any) : @M S PreambleRequest :=
  match request with
  | any_PreambleRequest r => ret r
  | _ => panic "interface conversion: interface {} is not endpoints.PreambleRequest"
  end.

Definition assert_PreambleResponse (resp : any) : @M S PreambleResponse :=
  match resp with
  | any_PreambleResponse r => ret r
  | _ => panic "interface conversion: interface {} is not endpoints.PreambleResponse"
  end.

(** endpoints.go: MakePreambleEndpoint.  [PreambleResponse{}] and
    [PreambleResponse{Rs: rs}] leave [Err] at its zero value. *)
Definition MakePreambleEndpoint `{Request PreambleRequest}
    (svc : PreamblesvcService) : @Endpoint S :=
  fun ctx request =>
    req <- assert_PreambleRequest request ;;
    match validate req with
    | Some err =>
        ret (any_PreambleResponse {| Rs := 0; Err := None |}, Some err)
    | None =>
        '(rs, err) <- invoke svc ctx (Msg req) ;;
        ret (any_PreambleResponse {| Rs := rs; Err := None |}, err)
    end.

(** endpoints.go: the Endpoints struct and its Preamble method. *)
Record Endpoints := { PreambleEndpoint : @Endpoint S }.

Definition Endpoints_Preamble (e : Endpoints) : @PreamblesvcService S :=
  fun ctx msg =>
    '(resp, err) <- PreambleEndpoint e ctx (any_PreambleRequest {| Msg := msg |}) ;;
    match err with
    | Some _ => ret (0, err)
    | None =>
        response <- assert_PreambleResponse resp ;;
        ret (Rs response, None)
    end.
End Endpoints.

(** ** Endpoint middlewares *)

Module ratelimit.
Section Limiter.
Context {S : Type}.

Definition ErrLimited : error := errors.New "rate limit exceeded".

(** Modelled from the spec: go-kit's ratelimit.NewErroringLimiter is a
    dependency, not under src/.  Before the wrapped endpoint is
    called a token is asked of the shared limiter; if it is denied
    the call fails at once with the rate-limit error and the wrapped
    endpoint is not called. *)
Definition NewErroringLimiter : @Middleware S :=
  fun next ctx request w =>
    let '(ok, lim) := rate.Allow (limiter w) (clock w) in
    let w := set_limiter lim w in
    if ok then next ctx request w
    else (Returned (any_nil, ErrLimited), w).
End Limiter.
End ratelimit.

Module circuitbreaker.
Section Breaker.
Context {S : Type}.

Definition is_nil (e : error) : bool :=
  match e with None => true | Some _ => false end.

(** Modelled from the spec: gobreaker's Execute is a dependency, not
    under src/.  The breaker is asked first; a rejection returns at
    once; otherwise the request runs and its outcome is recorded, a
    panic counting as a failure before it goes on. *)
Definition Execute (req : @M S (any * error)) : @M S (any * error) :=
  fun w =>
    let '(generation, err, cb) :=
      gobreaker.beforeRequest (breaker w) (clock w) in
    let w := set_breaker cb w in
    match err with
    | Some _ => (Returned (any_nil, err), w)
    | None =>
        match req w with
        | (Returned (result, err), w') =>
            (Returned (result, err),
             set_breaker
               (gobreaker.afterRequest (breaker w') generation
                  (is_nil err) (clock w')) w')
        | (Panicked r, w') =>
            (Panicked r,
             set_breaker
               (gobreaker.afterRequest (breaker w') generation
                  false (clock w')) w')
        end
    end.

(** Modelled from the spec: go-kit's circuitbreaker.Gobreaker, not
    under src/: the wrapped endpoint runs inside the breaker. *)
Definition Gobreaker : @Middleware S :=
  fun next ctx request => Execute (next ctx request).
End Breaker.
End circuitbreaker.

Module opentracing.
Section Tracing.
Context {S : Type}.

(** Modelled from the spec: go-kit's opentracing.TraceServer is a
    dependency, not under src/.  On entry it starts or continues the
    span named after the operation and puts it in the context; it
    finishes the span on every way out. *)
Definition TraceServer (tracer : Tracer) (operationName : string)
  : @Middleware S :=
  fun next ctx request w =>
    let w := record (EvSpanStart tracer operationName) w in
    let ctx := ("opentracing-span", operationName) :: ctx in
    defer_ (next ctx request)
           (fun _ => record (EvSpanFinish tracer operationName)) w.
End Tracing.
End opentracing.

Module zipkin.
Section Tracing.
Context {S : Type}.

(** Modelled from the spec: go-kit's zipkin.TraceEndpoint is a
    dependency, not under src/.  Same policy as the opentracing
    middleware, for the zipkin tracer. *)
Definition TraceEndpoint (tracer : Tracer) (name : string)
  : @Middleware S :=
  fun next ctx request w =>
    let w := record (EvSpanStart tracer name) w in
    let ctx := ("zipkin-span", name) :: ctx in
    defer_ (next ctx request)
           (fun _ => record (EvSpanFinish tracer name)) w.
End Tracing.
End zipkin.

Module log.
(** go-kit log.With: the logger with more pairs in its context. *)
Definition With (logger : Logger) (key : string) (value : LogValue) : Logger :=
  (logger ++ [(key, value)])%list.

(** go-kit level.Info: the logger with the level put in front. *)
Definition level_Info (logger : Logger) : Logger :=
  ("level", LStr "info") :: logger.
End log.

Section EndpointSet.
Context {S : Type}.

(** The error a deferred logging call sees in the named result. *)
Definition named_err {A} (r : option (A * error)) : error :=
  match r with
  | Some (_, err) => err
  | None => None
  end.

(** Modelled from the spec: endpoints.LoggingMiddleware (the package's
    middleware.go) is not under src/.  It has the semantics of the
    Service logging decorator at the endpoint layer, oblivious to the
    request and response types: it notes the start time, calls the
    wrapped endpoint, and on every way out writes one entry with the
    logger's context (the operation name), the resulting error and the
    time taken. *)
Definition LoggingMiddleware (logger : Logger) : @Middleware S :=
  fun next ctx request w =>
    let begin := clock w in
    defer_ (next ctx request)
           (fun r w' =>
              record (EvLog (logger ++ [("transport_error", LErr (named_err r));
                                        ("took", LDur (clock w' - begin))])) w')
           w.

(** endpoints.go: New.  The limiter and the breaker it builds are the
    [limiter] and [breaker] cells of the world, see [New_wiring]. *)
Definition New (svc : PreamblesvcService) (logger : Logger)
    (otTracer zipkinTracer : Tracer) : @Endpoints S :=
  let method := "sum" in
  let preambleEndpoint := MakePreambleEndpoint svc in
  let preambleEndpoint := ratelimit.NewErroringLimiter preambleEndpoint in
  let preambleEndpoint := circuitbreaker.Gobreaker preambleEndpoint in
  let preambleEndpoint := opentracing.TraceServer otTracer method preambleEndpoint in
  let preambleEndpoint := zipkin.TraceEndpoint zipkinTracer method preambleEndpoint in
  let preambleEndpoint :=
    LoggingMiddleware (log.With logger "method" (LStr method)) preambleEndpoint in
  {| PreambleEndpoint := preambleEndpoint |}.

(** [gobreaker.Settings{}], the breaker of endpoints.New. *)
Definition serverBreakerSettings : gobreaker.Settings :=
  {| gobreaker.Name := ""; gobreaker.MaxRequests := 0;
     gobreaker.Interval := 0; gobreaker.Timeout := 0;
     gobreaker.ReadyToTrip := None |}.

(** [gobreaker.Settings{Name: "Preamble", Timeout: 30 * time.Second}],
    the breaker of NewGRPCClient. *)
Definition clientBreakerSettings : gobreaker.Settings :=
  {| gobreaker.Name := "Preamble"; gobreaker.MaxRequests := 0;
     gobreaker.Interval := 0; gobreaker.Timeout := 30 * Second;
     gobreaker.ReadyToTrip := None |}.

(** What New allocates when it wires the endpoint, at the time it runs:
    [rate.NewLimiter(rate.Every(time.Second), 100)] and
    [gobreaker.NewCircuitBreaker(gobreaker.Settings{})]. *)
Definition New_wiring (w : World S) : World S :=
  set_limiter (rate.NewLimiter (rate.Every Second) 100)
    (set_breaker (gobreaker.NewCircuitBreaker serverBreakerSettings (clock w))
       w).
End EndpointSet.

(** ** The Service logging decorator (service/logging.go) *)

Module servicelogging.
Section Logging.
Context {S : Type}.

Record loggingMiddleware := {
  logger : Logger;
  next : @PreamblesvcService S
}.

(** [LoggingMiddleware(logger)(next)]. *)
Definition LoggingMiddleware (l : Logger) (n : @PreamblesvcService S)
  : loggingMiddleware :=
  {| logger := log.level_Info l; next := n |}.

(** What an identifier of the method body can stand for. *)
Inductive value :=
| VContext (c : Context)
| VInt64 (n : int64)
| VError (e : error).

(** The identifiers declared where [lm.next.Preamble] is called: the
    parameters [ctx] and [msg] and the named results [rs] and [err]. *)
Definition Preamble_scope (ctx : Context) (msg : int64)
  : list (string * value) :=
  [("ctx", VContext ctx); ("msg", VInt64 msg);
   ("rs", VInt64 0); ("err", VError None)].

(** The arguments the method forwards: [lm.next.Preamble(ctx, a, b)]. *)
Definition Preamble_forwarded : list string := ["ctx"; "a"; "b"].

Fixpoint lookup (env : list (string * value)) (x : string) : option value :=
  match env with
  | [] => None
  | (y, v) :: env' => if String.eqb x y then Some v else lookup env' x
  end.

Fixpoint resolve (env : list (string * value)) (xs : list string)
  : option (list value) :=
  match xs with
  | [] => Some []
  | x :: xs' =>
      match lookup env x, resolve env xs' with
      | Some v, Some vs => Some (v :: vs)
      | _, _ => None
      end
  end.

(** A call of the Service method: it takes a context and an int64. *)
Definition call_Preamble (svc : @PreamblesvcService S) (args : list value)
  : option (@M S (int64 * error)) :=
  match args with
  | [VContext c; VInt64 n] => Some (svc c n)
  | _ => None
  end.

(** The method body for a given list of forwarded identifiers: the
    deferred call logs [msg] and the named result [err].  [None]:
    the call does not resolve, the method has no behaviour. *)
Definition Preamble_forwarding (forwarded : list string)
    (lm : loggingMiddleware) (ctx : Context) (msg : int64)
  : option (@M S (int64 * error)) :=
  match resolve (Preamble_scope ctx msg) forwarded with
  | None => None
  | Some args =>
      match call_Preamble (next lm) args with
      | None => None
      | Some call =>
          Some (defer_ call
                  (fun r =>
                     record (EvLog (logger lm ++
                                      [("method", LStr "Preable");
                                       ("msg", LInt msg);
                                       ("err", LErr (named_err r))]))))
      end
  end.

(** logging.go: loggingMiddleware.Preamble as it is written. *)
Definition loggingMiddleware_Preamble
  : loggingMiddleware -> Context -> int64 -> option (@M S (int64 * error)) :=
  Preamble_forwarding Preamble_forwarded.

(** The decorator of the spec: it forwards the context and the
    message it was called with. *)
Definition loggingMiddleware_Preamble_spec
  : loggingMiddleware -> Context -> int64 -> option (@M S (int64 * error)) :=
  Preamble_forwarding ["ctx"; "msg"].
End Logging.
End servicelogging.

(** ** Runs of calls, and sample services and worlds *)

Section Runs.
Context {S : Type}.

(** One call per instant of [ts], each at that time of the clock. *)
Definition calls_at (ts : list Time) (ep : @Endpoint S) (ctx : Context)
    (request : any) (w : World S) : World S :=
  fold_left (fun w t => snd (ep ctx request (set_clock t w))) ts w.

(** The error of an outcome, as a caller or a deferred call sees it. *)
Definition outcome_err (o : outcome (any * error)) : error :=
  match o with
  | Returned (_, err) => err
  | Panicked _ => None
  end.

(** The call did not succeed: it returned an error or it panicked. *)
Definition failed (o : outcome (any * error)) : bool :=
  match o with
  | Returned (_, None) => false
  | _ => true
  end.

(** Every call of the run of [calls_at] failed, each in the world it
    ran in. *)
Fixpoint all_failed (ts : list Time) (ep : @Endpoint S) (ctx : Context)
    (request : any) (w : World S) : bool :=
  match ts with
  | [] => true
  | t :: ts' =>
      failed (fst (ep ctx request (set_clock t w)))
      && all_failed ts' ep ctx request (snd (ep ctx request (set_clock t w)))
  end.

(** An endpoint that leaves the breaker and the clock alone, as every
    endpoint a breaker wraps in this repository does. *)
Definition keeps_breaker (ep : @Endpoint S) : Prop :=
  forall ctx request w,
    breaker (snd (ep ctx request w)) = breaker w /\
    clock (snd (ep ctx request w)) = clock w.

(** A Service that leaves the breaker and the clock alone. *)
Definition service_keeps_breaker (svc : @PreamblesvcService S) : Prop :=
  forall ctx msg w,
    breaker (snd (svc ctx msg w)) = breaker w /\
    clock (snd (svc ctx msg w)) = clock w.

(** The breaker policy both constructors of the repository end up
    with: one trial call, no clearing interval, the default trip. *)
Definition default_policy (cb : gobreaker.CircuitBreaker) : Prop :=
  gobreaker.maxRequests cb = 1 /\
  gobreaker.interval cb = 0 /\
  gobreaker.readyToTrip cb = gobreaker.defaultReadyToTrip.
End Runs.

Module samples.
(** A Service whose every call fails with a business error. *)
Definition failing_service : @PreamblesvcService unit :=
  fun _ _ => ret (0, errors.New "not found").

(** A validate method that refuses a negative message. *)
Definition nonnegative_Request : Request PreambleRequest :=
  {| validate := fun r =>
       if Msg r <? 0 then errors.New "msg is negative" else None |}.

(** An endpoint whose response carries an error in its Err field while
    the error it returns is nil. *)
Definition Err_carrying_endpoint : @Endpoint unit :=
  fun _ _ =>
    ret (any_PreambleResponse {| Rs := 7; Err := errors.New "lost" |}, None).

(** The world right after endpoints.New ran, five seconds in. *)
Definition fresh_world : World unit :=
  New_wiring {| clock := 5 * Second;
                limiter := rate.NewLimiter 1 1;
                breaker := gobreaker.NewCircuitBreaker serverBreakerSettings 0;
                events := [];
                svc_state := tt |}.

(** The same world once the bucket is empty. *)
Definition drained_world : World unit :=
  set_limiter {| rate.lim_every := Second; rate.lim_burst := 100;
                 rate.lim_tokens := 0; rate.lim_last := 5 * Second |}
              fresh_world.

Definition request5 : any := any_PreambleRequest {| Msg := 5 |}.

(** The bare endpoint over the failing Service, and the breaker around it. *)
Definition failing_endpoint : @Endpoint unit :=
  MakePreambleEndpoint failing_service.

Definition succeeding_endpoint : @Endpoint unit :=
  MakePreambleEndpoint stubPreamblesvcService_Preamble.

(** Six failed calls through the breaker, from the fresh world. *)
Definition six_failures : World unit :=
  calls_at [5 * Second; 5 * Second; 6 * Second; 6 * Second; 7 * Second;
            7 * Second]
    (circuitbreaker.Gobreaker failing_endpoint) [] request5 fresh_world.

(** The breaker they leave behind: Open until second 67. *)
Definition open_breaker : gobreaker.CircuitBreaker :=
  {| gobreaker.name := ""; gobreaker.maxRequests := 1;
     gobreaker.interval := 0; gobreaker.timeout := 60 * Second;
     gobreaker.readyToTrip := gobreaker.defaultReadyToTrip;
     gobreaker.state := gobreaker.StateOpen; gobreaker.generation := 2;
     gobreaker.counts := gobreaker.Counts_clear;
     gobreaker.expiry := Some (67 * Second) |}.

(** The world they leave behind. *)
Definition tripped_world : World unit :=
  {| clock := 7 * Second;
     limiter := rate.NewLimiter (rate.Every Second) 100;
     breaker := open_breaker;
     events := [EvServiceCall [] 5; EvServiceCall [] 5; EvServiceCall [] 5;
                EvServiceCall [] 5; EvServiceCall [] 5; EvServiceCall [] 5];
     svc_state := tt |}.

(** A Service that is down for its first six calls and answers from
    then on; its state counts the calls. *)
Definition flaky_service : @PreamblesvcService Z :=
  pure_service
    (fun _ msg n =>
       if n <? 6 then ((0, errors.New "unavailable"), n + 1)
       else ((msg, None), n + 1)).

(** What the breaker of endpoints.New wraps, over that Service: the
    limiter around the bare endpoint. *)
Definition flaky_endpoint : @Endpoint Z :=
  ratelimit.NewErroringLimiter (MakePreambleEndpoint flaky_service).

(** The world right after New ran, five seconds in, the Service not yet
    called. *)
Definition flaky_world : World Z :=
  New_wiring {| clock := 5 * Second;
                limiter := rate.NewLimiter 1 1;
                breaker := gobreaker.NewCircuitBreaker serverBreakerSettings 0;
                events := [];
                svc_state := 0 |}.

Definition six_instants : list Time :=
  [5 * Second; 5 * Second; 6 * Second; 6 * Second; 7 * Second; 7 * Second].

(** Six calls through the breaker, from that world. *)
Definition flaky_six_calls : World Z :=
  calls_at six_instants (circuitbreaker.Gobreaker flaky_endpoint) []
    request5 flaky_world.

(** The world they leave behind: the breaker Open until second 67, six
    tokens taken and two refilled, the Service called six times. *)
Definition flaky_tripped_world : World Z :=
  {| clock := 7 * Second;
     limiter := {| rate.lim_every := Second; rate.lim_burst := 100;
                   rate.lim_tokens := 96 * Second;
                   rate.lim_last := 7 * Second |};
     breaker := open_breaker;
     events := [EvServiceCall [] 5; EvServiceCall [] 5; EvServiceCall [] 5;
                EvServiceCall [] 5; EvServiceCall [] 5; EvServiceCall [] 5];
     svc_state := 6 |}.

(** The same world one second after the cooldown, and that world with
    the Service down again. *)
Definition flaky_cooled_world : World Z :=
  set_clock (68 * Second) flaky_tripped_world.

Definition flaky_relapsed_world : World Z :=
  set_svc_state 0 flaky_cooled_world.
End samples.

(** ** The gRPC transport: replies, their codecs and the server method *)

Module pb.
(** Modelled from the spec: the generated package pb is not under src/.
    Of its PreambleReply the transport reads and writes the field Rs
    only; the spec gives the wire response the one field rs, an int64. *)
Record PreambleReply := { Rs : int64 }.
End pb.

(** [interface{}] on the wire side of the transport: the dynamic type of
    a gRPC reply. *)
Inductive grpc_any :=
| grpc_nil
| grpc_PreambleReply (r : pb.PreambleReply)
| grpc_other (type_name : string).

(** transport: encodeGRPCPreambleResponse.  The context is not used. *)
Definition encodeGRPCPreambleResponse (_ : Context) (grpcReply : any)
  : outcome (grpc_any * error) :=
  match grpcReply with
  | any_PreambleResponse reply =>
      Returned (grpc_PreambleReply {| pb.Rs := Rs reply |},
                grpcEncodeError (Err reply))
  | _ =>
      Panicked "interface conversion: interface {} is not endpoints.PreambleResponse"
  end.

(** transport: decodeGRPCPreambleResponse.  The context is not used. *)
Definition decodeGRPCPreambleResponse (_ : Context) (grpcReply : grpc_any)
  : outcome (any * error) :=
  match grpcReply with
  | grpc_PreambleReply reply =>
      Returned (any_PreambleResponse {| Rs := pb.Rs reply; Err := None |}, None)
  | _ =>
      Panicked "interface conversion: interface {} is not *pb.PreambleReply"
  end.

(** An error a gRPC peer can read: nil, or an error with a status whose
    code is not OK. *)
Definition wire_safe (e : error) : bool :=
  match e with
  | None => true
  | Some (statusError st) => negb (codes.eqb (st_code st) codes.OK)
  | Some (otherStatusError _ st) => negb (codes.eqb (st_code st) codes.OK)
  | Some (errorString _) => false
  end.

Section Transport.
Context {S Req : Type}.

(** go-kit's grpctransport.Handler: the one method ServeGRPC, from a
    context and a wire request to a context, a reply and an error.  The
    wire request type is pb's, kept abstract. *)
Definition Handler : Type := Context -> Req -> @M S (Context * grpc_any * error).

(** transport: the grpcServer struct. *)
Record grpcServer := { preamble : Handler; concat : Handler }.

(** The type assertion of [rp] to a pointer to pb.PreambleReply. *)
Definition assert_PreambleReply (rp : grpc_any) : @M S pb.PreambleReply :=
  match rp with
  | grpc_PreambleReply r => ret r
  | _ => panic "interface conversion: interface {} is not *pb.PreambleReply"
  end.

(** transport: grpcServer.Preamble. *)
Definition grpcServer_Preamble (s : grpcServer) (ctx : Context) (req : Req)
  : @M S (grpc_any * error) :=
  '(_, rp, err) <- preamble s ctx req ;;
  match err with
  | Some _ => ret (grpc_nil, grpcEncodeError err)
  | None =>
      rep <- assert_PreambleReply rp ;;
      ret (grpc_PreambleReply rep, None)
  end.
End Transport.

(** ** The client side: the Preamble endpoint of NewGRPCClient *)

Module opentracingclient.
Section Tracing.
Context {S : Type}.

(** Modelled from the spec: go-kit's opentracing.TraceClient is a
    dependency, not under src/.  Like the server middleware it starts a
    span named after the operation, puts it in the context and finishes
    it on every way out. *)
Definition TraceClient (tracer : Tracer) (operationName : string)
  : @Middleware S :=
  fun next ctx request w =>
    let w := record (EvSpanStart tracer operationName) w in
    let ctx := ("opentracing-span", operationName) :: ctx in
    defer_ (next ctx request)
           (fun _ => record (EvSpanFinish tracer operationName)) w.
End Tracing.
End opentracingclient.

Section Client.
Context {S : Type}.

(** transport: the [sumEndpoint] of NewGRPCClient.  [transport] stands
    for [grpctransport.NewClient(...).Endpoint()], the call over the
    wire; the limiter and the breaker are the cells of the world. *)
Definition NewGRPCClient_sumEndpoint (transport : @Endpoint S)
    (otTracer : Tracer) : @Endpoint S :=
  let sumEndpoint := transport in
  let sumEndpoint :=
    opentracingclient.TraceClient otTracer "Preamble" sumEndpoint in
  let sumEndpoint := ratelimit.NewErroringLimiter sumEndpoint in
  let sumEndpoint := circuitbreaker.Gobreaker sumEndpoint in
  sumEndpoint.
End Client.

(** ** The parts of the endpoint of endpoints.New *)

Section NewParts.
Context {S : Type}.

(** The endpoint New has built after its line for the breaker: the
    breaker around the limiter around the bare endpoint. *)
Definition New_guarded (svc : @PreamblesvcService S) : @Endpoint S :=
  circuitbreaker.Gobreaker
    (ratelimit.NewErroringLimiter (MakePreambleEndpoint svc)).

(** The context the two tracing middlewares of New hand on. *)
Definition New_traced_context (ctx : Context) : Context :=
  ("opentracing-span", "sum") :: ("zipkin-span", "sum") :: ctx.

(** An event that is not a call of the Service. *)
Definition not_a_call (e : Event) : bool :=
  match e with
  | EvServiceCall _ _ => false
  | _ => true
  end.
End NewParts.

(** ** Bursts *)

(** [n] calls of Allow at the one instant [now]: the answers in order,
    and the limiter they leave. *)
Fixpoint allow_n (n : nat) (lim : rate.Limiter) (now : Time)
  : list bool * rate.Limiter :=
  match n with
  | O => ([], lim)
  | Datatypes.S n' =>
      let '(ok, lim1) := rate.Allow lim now in
      let '(oks, lim2) := allow_n n' lim1 now in
      (ok :: oks, lim2)
  end.

(** The limiter has granted [k] tokens of a full bucket at the instant
    [now] and none has come back yet. *)
Definition charged (every burst : Z) (now : Time) (lim : rate.Limiter) (k : Z)
  : Prop :=
  rate.lim_every lim = every /\
  rate.lim_burst lim = burst /\
  rate.lim_tokens lim = (burst - k) * every /\
  (k = 0 \/ rate.lim_last lim = now).

(** The outcome is a return whose nil error comes with a
    PreambleResponse: what Endpoints.Preamble can take without a panic. *)
Definition well_formed (o : outcome (any * error)) : Prop :=
  match o with
  | Returned (_, Some _) => True
  | Returned (any_PreambleResponse _, None) => True
  | _ => False
  end.

(** * Properties *)

(** ** The error mapping of the transport *)

Lemma status_Error_FromError (c : codes.Code) (msg : string) (e : error_value) :
  status.Error c msg = Some e ->
  status.FromError e = ({| st_code := c; st_message := msg |}, true).
Proof.
  unfold status.Error.
  destruct (codes.eqb c codes.OK); intros H; inversion H; reflexivity.
Qed.

Lemma grpcEncodeError_fixes_status_errors (c : codes.Code) (msg : string) :
  grpcEncodeError (status.Error c msg) = status.Error c msg.
Proof.
  destruct (status.Error c msg) as [e|] eqn:E; [|reflexivity].
  unfold grpcEncodeError.
  rewrite (status_Error_FromError _ _ E). exact E.
Qed.

(** C5: grpcEncodeError is idempotent.  Mapping an error that was already
    mapped gives the same error back, hence the same wire status code and
    the same message; and nil is mapped to nil. *)
Theorem grpcEncodeError_idempotent (e : error) :
  grpcEncodeError (grpcEncodeError e) = grpcEncodeError e /\
  wire_status (grpcEncodeError (grpcEncodeError e))
    = wire_status (grpcEncodeError e) /\
  grpcEncodeError None = None.
Proof.
  assert (H : grpcEncodeError (grpcEncodeError e) = grpcEncodeError e).
  { destruct e as [[s|st|text st]|]; cbn [grpcEncodeError status.FromError].
    - apply grpcEncodeError_fixes_status_errors.
    - apply grpcEncodeError_fixes_status_errors.
    - apply grpcEncodeError_fixes_status_errors.
    - reflexivity. }
  split; [exact H|]. split; [now rewrite H | reflexivity].
Qed.

(** ** The stub Service *)

(** C3: the stub's Preamble returns its message and a nil error, in every
    context and every world, and changes nothing. *)
Theorem stubPreamblesvcService_Preamble_echo
    (S : Type) (ctx : Context) (msg : int64) (w : World S) :
  stubPreamblesvcService_Preamble ctx msg w = (Returned (msg, None), w).
Proof. reflexivity. Qed.

(** ** The bare endpoint *)

Section BareEndpoint.
Context {S : Type}.
Variable V : Request PreambleRequest.
Variable svc : @PreamblesvcService S.

(** What the endpoint does on a request of the right type, by the
    result of validate. *)
Lemma MakePreambleEndpoint_invalid ctx req w e :
  @validate _ V req = Some e ->
  @MakePreambleEndpoint S V svc ctx (any_PreambleRequest req) w
    = (Returned (any_PreambleResponse {| Rs := 0; Err := None |}, Some e), w).
Proof.
  intros Hv. unfold MakePreambleEndpoint, bind, assert_PreambleRequest, ret.
  now rewrite Hv.
Qed.

Lemma MakePreambleEndpoint_valid ctx req w :
  @validate _ V req = None ->
  @MakePreambleEndpoint S V svc ctx (any_PreambleRequest req) w
    = match invoke svc ctx (Msg req) w with
      | (Returned (rs, err), w') =>
          (Returned (any_PreambleResponse {| Rs := rs; Err := None |}, err), w')
      | (Panicked r, w') => (Panicked r, w')
      end.
Proof.
  intros Hv. unfold MakePreambleEndpoint, bind, assert_PreambleRequest, ret.
  rewrite Hv.
  destruct (invoke svc ctx (Msg req) w) as [[[rs err]|r] w']; reflexivity.
Qed.

Lemma MakePreambleEndpoint_returns_request ctx request w out w' :
  @MakePreambleEndpoint S V svc ctx request w = (Returned out, w') ->
  exists req, request = any_PreambleRequest req.
Proof.
  destruct request as [|req|r|t]; cbn; intros H;
    try discriminate H.
  now exists req.
Qed.
End BareEndpoint.

(** C2: when validate refuses the request, the endpoint returns the empty
    PreambleResponse and exactly the error of validate; the world is the
    one it started in, so the Service was not called, whatever it is. *)
Theorem MakePreambleEndpoint_validation_short_circuit
    (S : Type) (V : Request PreambleRequest) (svc : @PreamblesvcService S)
    (ctx : Context) (req : PreambleRequest) (w : World S) (e : error_value) :
  @validate _ V req = Some e ->
  @MakePreambleEndpoint S V svc ctx (any_PreambleRequest req) w
    = (Returned (any_PreambleResponse {| Rs := 0; Err := None |}, Some e), w) /\
  service_calls
    (snd (@MakePreambleEndpoint S V svc ctx (any_PreambleRequest req) w))
    = service_calls w.
Proof.
  intros Hv. rewrite (MakePreambleEndpoint_invalid V svc ctx req w Hv).
  split; reflexivity.
Qed.

Lemma MakePreambleEndpoint_validation_short_circuit_witness :
  @validate _ samples.nonnegative_Request {| Msg := -1 |}
    = errors.New "msg is negative" /\
  @MakePreambleEndpoint unit samples.nonnegative_Request
    samples.failing_service [] (any_PreambleRequest {| Msg := -1 |})
    samples.fresh_world
    = (Returned (any_PreambleResponse {| Rs := 0; Err := None |},
                 errors.New "msg is negative"),
       samples.fresh_world).
Proof.
  split; [reflexivity|].
  apply (@MakePreambleEndpoint_validation_short_circuit unit
           samples.nonnegative_Request samples.failing_service []
           {| Msg := -1 |} samples.fresh_world
           (errorString "msg is negative")).
  reflexivity.
Defined.

(** C9: on a request that passes validate, when the call of the Service
    returns a nil error, the endpoint returns a PreambleResponse with the
    result of the Service and a nil Err, whose StatusCode is 200 OK and
    whose Headers are empty, and a nil error. *)
Theorem MakePreambleEndpoint_success
    (S : Type) (V : Request PreambleRequest) (svc : @PreamblesvcService S)
    (ctx : Context) (req : PreambleRequest) (w w' : World S) (rs : int64) :
  @validate _ V req = None ->
  invoke svc ctx (Msg req) w = (Returned (rs, None), w') ->
  exists r,
    @MakePreambleEndpoint S V svc ctx (any_PreambleRequest req) w
      = (Returned (any_PreambleResponse r, None), w') /\
    Rs r = rs /\
    Err r = None /\
    PreambleResponse_StatusCode r = http.StatusOK /\
    PreambleResponse_Headers r = [].
Proof.
  intros Hv Hs. exists {| Rs := rs; Err := None |}.
  rewrite (MakePreambleEndpoint_valid V svc ctx req w Hv), Hs.
  repeat split.
Qed.

Lemma MakePreambleEndpoint_success_witness :
  exists r,
    @MakePreambleEndpoint unit PreambleRequest_Request
      stubPreamblesvcService_Preamble [] (any_PreambleRequest {| Msg := 5 |})
      samples.fresh_world
      = (Returned (any_PreambleResponse r, None),
         record (EvServiceCall [] 5) samples.fresh_world) /\
    Rs r = 5 /\
    Err r = None /\
    PreambleResponse_StatusCode r = http.StatusOK /\
    PreambleResponse_Headers r = [].
Proof.
  apply (@MakePreambleEndpoint_success unit PreambleRequest_Request
           stubPreamblesvcService_Preamble [] {| Msg := 5 |}
           samples.fresh_world
           (record (EvServiceCall [] 5) samples.fresh_world) 5);
    reflexivity.
Defined.

(** C1, as stated, fails: over a Service that returns a business error
    the endpoint returns that error as its second value, and a response
    whose Err field is nil, not that error. *)
Lemma MakePreambleEndpoint_Err_not_populated :
  exists r e w',
    samples.failing_endpoint [] samples.request5 samples.fresh_world
      = (Returned (any_PreambleResponse r, Some e), w') /\
    Err r <> Some e.
Proof.
  exists {| Rs := 0; Err := None |}, (errorString "not found").
  eexists. split; [reflexivity | discriminate].
Qed.

(** C1, amended: a failure surfaces in the second return value only.
    Whenever the endpoint returns a non-nil error, this error is the one
    validate returned, or else the one the Service returned, and the
    response is a PreambleResponse whose Err field is nil. *)
Theorem MakePreambleEndpoint_failure_channel
    (S : Type) (V : Request PreambleRequest) (svc : @PreamblesvcService S)
    (ctx : Context) (request resp : any) (w w' : World S) (e : error_value) :
  @MakePreambleEndpoint S V svc ctx request w = (Returned (resp, Some e), w') ->
  exists req rs,
    request = any_PreambleRequest req /\
    resp = any_PreambleResponse {| Rs := rs; Err := None |} /\
    ((@validate _ V req = Some e /\ rs = 0 /\ w' = w) \/
     (@validate _ V req = None /\
      invoke svc ctx (Msg req) w = (Returned (rs, Some e), w'))).
Proof.
  intros H.
  destruct (MakePreambleEndpoint_returns_request V svc ctx request w H)
    as [req ->].
  exists req.
  destruct (@validate _ V req) as [e0|] eqn:Hv.
  - rewrite (MakePreambleEndpoint_invalid V svc ctx req w Hv) in H.
    inversion H; subst. exists 0.
    split; [reflexivity|]. split; [reflexivity|]. left. repeat split.
  - rewrite (MakePreambleEndpoint_valid V svc ctx req w Hv) in H.
    destruct (invoke svc ctx (Msg req) w) as [[[rs err]|r] w1] eqn:Hi;
      inversion H; subst.
    exists rs.
    split; [reflexivity|]. split; [reflexivity|]. right. split; reflexivity.
Qed.

Lemma MakePreambleEndpoint_failure_channel_witness :
  exists req rs,
    samples.request5 = any_PreambleRequest req /\
    any_PreambleResponse {| Rs := 0; Err := None |}
      = any_PreambleResponse {| Rs := rs; Err := None |} /\
    ((validate req = Some (errorString "not found") /\ rs = 0 /\
      record (EvServiceCall [] 5) samples.fresh_world = samples.fresh_world) \/
     (validate req = None /\
      invoke samples.failing_service [] (Msg req) samples.fresh_world
        = (Returned (rs, Some (errorString "not found")),
           record (EvServiceCall [] 5) samples.fresh_world))).
Proof.
  apply (@MakePreambleEndpoint_failure_channel unit PreambleRequest_Request
           samples.failing_service [] samples.request5
           (any_PreambleResponse {| Rs := 0; Err := None |})
           samples.fresh_world
           (record (EvServiceCall [] 5) samples.fresh_world)
           (errorString "not found")).
  reflexivity.
Defined.

(** ** Endpoints as a Service *)

(** C10: Endpoints.Preamble returns (0, err) when the endpoint returns a
    non-nil error, and otherwise the Rs of the response with a nil error,
    whatever the Err field of the response holds: a response that carries
    an error in Err next to a nil second value is reported as a success. *)
Theorem Endpoints_Preamble_ignores_Err
    (S : Type) (e : @Endpoints S) (ctx : Context) (msg : int64)
    (w w' : World S) (resp : any) (err : error) :
  PreambleEndpoint e ctx (any_PreambleRequest {| Msg := msg |}) w
    = (Returned (resp, err), w') ->
  (forall ev, err = Some ev ->
     Endpoints_Preamble e ctx msg w = (Returned (0, Some ev), w')) /\
  (forall r, err = None -> resp = any_PreambleResponse r ->
     Endpoints_Preamble e ctx msg w = (Returned (Rs r, None), w')).
Proof.
  intros H. unfold Endpoints_Preamble, bind. rewrite H. split.
  - intros ev ->. reflexivity.
  - intros r -> ->. reflexivity.
Qed.

Lemma Endpoints_Preamble_ignores_Err_witness :
  Endpoints_Preamble {| PreambleEndpoint := samples.Err_carrying_endpoint |}
    [] 5 samples.fresh_world
    = (Returned (7, None), samples.fresh_world) /\
  Endpoints_Preamble {| PreambleEndpoint := samples.failing_endpoint |}
    [] 5 samples.fresh_world
    = (Returned (0, errors.New "not found"),
       record (EvServiceCall [] 5) samples.fresh_world).
Proof.
  split.
  - exact (proj2 (@Endpoints_Preamble_ignores_Err unit
             {| PreambleEndpoint := samples.Err_carrying_endpoint |} [] 5
             samples.fresh_world samples.fresh_world
             (any_PreambleResponse {| Rs := 7; Err := errors.New "lost" |})
             None eq_refl)
           {| Rs := 7; Err := errors.New "lost" |} eq_refl eq_refl).
  - exact (proj1 (@Endpoints_Preamble_ignores_Err unit
             {| PreambleEndpoint := samples.failing_endpoint |} [] 5
             samples.fresh_world
             (record (EvServiceCall [] 5) samples.fresh_world)
             (any_PreambleResponse {| Rs := 0; Err := None |})
             (errors.New "not found") eq_refl)
           (errorString "not found") eq_refl).
Defined.

(** ** The rate limiter *)

Lemma service_calls_set_limiter (S : Type) (l : rate.Limiter) (w : World S) :
  service_calls (set_limiter l w) = service_calls w.
Proof. reflexivity. Qed.

(** C6: when the limiter denies the token, the call fails at once with
    the rate-limit error, a non-nil error that says so; the result does
    not depend on the wrapped endpoint, and nothing but the limiter
    changes, so neither the wrapped endpoint nor the Service ran.  When
    the token is granted, the result is the one of the wrapped endpoint,
    unchanged. *)
Theorem NewErroringLimiter_gate
    (S : Type) (next : @Endpoint S) (ctx : Context) (request : any)
    (w : World S) :
  (fst (rate.Allow (limiter w) (clock w)) = false ->
   ratelimit.NewErroringLimiter next ctx request w
     = (Returned (any_nil, ratelimit.ErrLimited),
        set_limiter (snd (rate.Allow (limiter w) (clock w))) w) /\
   ratelimit.ErrLimited = Some (errorString "rate limit exceeded") /\
   failed (fst (ratelimit.NewErroringLimiter next ctx request w)) = true /\
   events (snd (ratelimit.NewErroringLimiter next ctx request w)) = events w /\
   service_calls (snd (ratelimit.NewErroringLimiter next ctx request w))
     = service_calls w /\
   svc_state (snd (ratelimit.NewErroringLimiter next ctx request w))
     = svc_state w) /\
  (fst (rate.Allow (limiter w) (clock w)) = true ->
   ratelimit.NewErroringLimiter next ctx request w
     = next ctx request
         (set_limiter (snd (rate.Allow (limiter w) (clock w))) w)).
Proof.
  unfold ratelimit.NewErroringLimiter.
  destruct (rate.Allow (limiter w) (clock w)) as [ok lim]; cbn [fst snd].
  split; intros ->; [|reflexivity].
  repeat split.
Qed.

Lemma NewErroringLimiter_gate_witness :
  ratelimit.NewErroringLimiter samples.succeeding_endpoint [] samples.request5
    samples.drained_world
    = (Returned (any_nil, Some (errorString "rate limit exceeded")),
       samples.drained_world) /\
  failed (fst (ratelimit.NewErroringLimiter samples.succeeding_endpoint []
                 samples.request5 samples.drained_world)) = true /\
  service_calls
    (snd (ratelimit.NewErroringLimiter samples.succeeding_endpoint []
            samples.request5 samples.drained_world)) = 0%nat /\
  fst (ratelimit.NewErroringLimiter samples.succeeding_endpoint []
         samples.request5 samples.fresh_world)
    = Returned (any_PreambleResponse {| Rs := 5; Err := None |}, None).
Proof.
  destruct (proj1 (@NewErroringLimiter_gate unit
                     samples.succeeding_endpoint [] samples.request5
                     samples.drained_world) eq_refl)
    as (Hrun & Herr & Hfailed & _ & Hcalls & _).
  split; [|split; [|split]].
  - exact Hrun.
  - exact Hfailed.
  - exact Hcalls.
  - rewrite (proj2 (@NewErroringLimiter_gate unit
                      samples.succeeding_endpoint [] samples.request5
                      samples.fresh_world) eq_refl).
    reflexivity.
Defined.

(** ** The order of the middlewares in endpoints.New *)

(** C4, as stated, fails.  On a call the limiter rejects, the Service is
    not called and still a log entry is written, so logging is not inside
    the limiter; and the breaker has counted the rejected call as a
    failure, so the breaker is not inside the limiter either. *)
Lemma New_logs_rate_limited_call :
  let ep : @Endpoint unit :=
    PreambleEndpoint (New stubPreamblesvcService_Preamble [] "ot" "zk") in
  let run := ep [] samples.request5 samples.drained_world in
  fst run = Returned (any_nil, ratelimit.ErrLimited) /\
  service_calls (snd run) = 0%nat /\
  log_entries (snd run)
    = [[("method", LStr "sum");
        ("transport_error", LErr ratelimit.ErrLimited);
        ("took", LDur 0)]] /\
  gobreaker.TotalFailures (gobreaker.counts (breaker (snd run))) = 1.
Proof. cbv zeta. repeat split. Qed.

Lemma record_clock (S : Type) (e : Event) (w : World S) :
  clock (record e w) = clock w.
Proof. reflexivity. Qed.

(** C4, amended: outermost to innermost the order is logging, zipkin
    tracing, opentracing tracing, circuit breaking, rate limiting.  Every
    call starts the zipkin span, then the opentracing span, runs the
    breaker around the limiter around the bare endpoint, finishes the two
    spans and then writes one log entry with the error of the call, also
    when the call was rejected or panicked.  The breaker is asked before
    the limiter: a call the breaker rejects takes no token and changes
    nothing but the breaker. *)
Theorem New_middleware_order
    (S : Type) (svc : @PreamblesvcService S) (logger : Logger)
    (otTracer zipkinTracer : Tracer) (ctx : Context) (request : any)
    (w : World S) :
  let inner : @Endpoint S :=
    circuitbreaker.Gobreaker
      (ratelimit.NewErroringLimiter (MakePreambleEndpoint svc)) in
  let run :=
    inner (("opentracing-span", "sum") :: ("zipkin-span", "sum") :: ctx)
      request
      (record (EvSpanStart otTracer "sum")
         (record (EvSpanStart zipkinTracer "sum") w)) in
  PreambleEndpoint (New svc logger otTracer zipkinTracer) ctx request w
    = (fst run,
       record
         (EvLog (log.With logger "method" (LStr "sum")
                   ++ [("transport_error", LErr (outcome_err (fst run)));
                       ("took", LDur (clock (snd run) - clock w))]))
         (record (EvSpanFinish zipkinTracer "sum")
            (record (EvSpanFinish otTracer "sum") (snd run)))) /\
  (forall ctx' w0 generation e cb,
     gobreaker.beforeRequest (breaker w0) (clock w0)
       = (generation, Some e, cb) ->
     inner ctx' request w0 = (Returned (any_nil, Some e), set_breaker cb w0)).
Proof.
  cbv zeta. split.
  - unfold New, PreambleEndpoint, LoggingMiddleware, zipkin.TraceEndpoint,
      opentracing.TraceServer, defer_.
    match goal with
    | |- context [circuitbreaker.Gobreaker ?n ?c ?r ?x] =>
        destruct (circuitbreaker.Gobreaker n c r x) as [[[resp err]|reason] w1]
    end; cbn [fst snd outcome_err named_err]; rewrite ?record_clock;
      reflexivity.
  - intros ctx' w0 generation e cb H.
    unfold circuitbreaker.Gobreaker, circuitbreaker.Execute.
    rewrite H. reflexivity.
Qed.

Lemma six_failures_tripped : samples.six_failures = samples.tripped_world.
Proof. vm_compute. reflexivity. Qed.

Lemma New_middleware_order_witness :
  gobreaker.beforeRequest (breaker samples.tripped_world)
      (clock samples.tripped_world)
    = (2, gobreaker.ErrOpenState, breaker samples.tripped_world) /\
  circuitbreaker.Gobreaker
    (ratelimit.NewErroringLimiter
       (MakePreambleEndpoint stubPreamblesvcService_Preamble))
    [] samples.request5 samples.tripped_world
    = (Returned (any_nil, gobreaker.ErrOpenState),
       set_breaker (breaker samples.tripped_world) samples.tripped_world).
Proof.
  assert (H : gobreaker.beforeRequest (breaker samples.tripped_world)
                 (clock samples.tripped_world)
               = (2, gobreaker.ErrOpenState, breaker samples.tripped_world))
    by (vm_compute; reflexivity).
  split; [exact H|].
  exact (proj2 (@New_middleware_order unit stubPreamblesvcService_Preamble
                  [] "ot" "zk" [] samples.request5 samples.fresh_world)
           [] samples.tripped_world 2 (errorString "circuit breaker is open")
           (breaker samples.tripped_world) H).
Defined.

(** ** The circuit breaker *)

Module breaker_facts.
Import gobreaker.

Lemma u32_small (x : Z) : 0 <= x < 2 ^ 32 -> u32 x = x.
Proof. intros H. unfold u32. apply Z.mod_small. exact H. Qed.

Lemma State_eqb_refl (s : State) : State_eqb s s = true.
Proof. destruct s; reflexivity. Qed.

(** [setState] to another state starts a generation in that state. *)
Lemma setState_state (cb : CircuitBreaker) (s : State) (now : Time) :
  state (setState cb s now) = s.
Proof.
  unfold setState. destruct (State_eqb (state cb) s) eqn:E.
  - destruct (state cb), s; (discriminate E || reflexivity).
  - reflexivity.
Qed.

Lemma setState_policy (cb : CircuitBreaker) (s : State) (now : Time) :
  default_policy cb -> default_policy (setState cb s now).
Proof.
  unfold setState. destruct (State_eqb (state cb) s); intros H; exact H.
Qed.

Lemma setState_Open_expiry (cb : CircuitBreaker) (now : Time) :
  state cb <> StateOpen ->
  expiry (setState cb StateOpen now) = Some (now + timeout cb).
Proof.
  intros H. unfold setState.
  destruct (state cb); [reflexivity | reflexivity | now elim H].
Qed.

Lemma setState_Closed_expiry (cb : CircuitBreaker) (now : Time) :
  state cb = StateHalfOpen -> interval cb = 0 ->
  expiry (setState cb StateClosed now) = None /\
  ConsecutiveFailures (counts (setState cb StateClosed now)) = 0.
Proof.
  intros Hs Hi. unfold setState. rewrite Hs. cbn. rewrite Hi. now split.
Qed.

(** A Closed breaker that never clears its counts stays as it is when
    asked for its state. *)
Lemma currentState_Closed (cb : CircuitBreaker) (now : Time) :
  state cb = StateClosed -> expiry cb = None -> currentState cb now = cb.
Proof. intros Hs He. unfold currentState. now rewrite Hs, He. Qed.

Lemma currentState_HalfOpen (cb : CircuitBreaker) (now : Time) :
  state cb = StateHalfOpen -> currentState cb now = cb.
Proof. intros Hs. unfold currentState. now rewrite Hs. Qed.

(** An Open breaker stays Open up to its expiry, and is HalfOpen after. *)
Lemma currentState_Open_cooling (cb : CircuitBreaker) (t now : Time) :
  state cb = StateOpen -> expiry cb = Some t -> now <= t ->
  currentState cb now = cb.
Proof.
  intros Hs He Hle. unfold currentState. rewrite Hs, He. cbn.
  destruct (Z.ltb_spec t now); [lia | reflexivity].
Qed.

Lemma currentState_Open_expired (cb : CircuitBreaker) (t now : Time) :
  state cb = StateOpen -> expiry cb = Some t -> t < now ->
  currentState cb now = toNewGeneration (with_state cb StateHalfOpen) now.
Proof.
  intros Hs He Hlt. unfold currentState. rewrite Hs, He. cbn.
  destruct (Z.ltb_spec t now); [|lia].
  unfold setState. now rewrite Hs.
Qed.

(** One failed call on a Closed breaker with [k] consecutive failures:
    the breaker is Open when this is the sixth, and Closed with [k + 1]
    consecutive failures before. *)
Lemma afterRequest_Closed_failure (cb : CircuitBreaker) (now : Time) (k : Z) :
  state cb = StateClosed -> expiry cb = None -> default_policy cb ->
  ConsecutiveFailures (counts cb) = k -> 0 <= k <= 5 ->
  let cb' :=
    afterRequest (with_counts cb (Counts_onRequest (counts cb)))
      (generation cb) false now in
  default_policy cb' /\
  (k = 5 -> state cb' = StateOpen /\ expiry cb' = Some (now + timeout cb)) /\
  (k < 5 -> state cb' = StateClosed /\ expiry cb' = None /\
            ConsecutiveFailures (counts cb') = k + 1).
Proof.
  intros Hs He Hp Hk Hr cb'. subst cb'.
  destruct Hp as (Hm & Hi & Ht).
  unfold afterRequest.
  rewrite currentState_Closed by assumption.
  cbn [generation with_counts]. rewrite Z.eqb_refl. cbn [negb].
  unfold onFailure. cbn [state with_counts]. rewrite Hs.
  cbn [readyToTrip with_counts counts]. rewrite Ht.
  unfold defaultReadyToTrip.
  cbn [ConsecutiveFailures Counts_onFailure Counts_onRequest].
  rewrite Hk. rewrite u32_small by lia.
  destruct (Z.ltb_spec 5 (k + 1)) as [Hgt|Hle].
  - split; [apply setState_policy; repeat split; assumption|].
    split; [|lia]. intros _. split.
    + apply setState_state.
    + rewrite setState_Open_expiry; [reflexivity|].
      cbn. rewrite Hs. discriminate.
  - split; [repeat split; assumption|].
    split; [lia|]. intros _. cbn. rewrite Hs, He, Hk.
    rewrite u32_small by lia. repeat split.
Qed.
End breaker_facts.

Section BreakerRejections.
Import gobreaker breaker_facts.
Context {S : Type}.
Variable next : @Endpoint S.

Lemma set_breaker_same (w : World S) : set_breaker (breaker w) w = w.
Proof. destruct w; reflexivity. Qed.

(** While the breaker is Open and its expiry is not behind the clock,
    a call is rejected and the world stays as it is. *)
Lemma Gobreaker_Open_rejects ctx request (w : World S) t :
  state (breaker w) = StateOpen -> expiry (breaker w) = Some t ->
  clock w <= t ->
  circuitbreaker.Gobreaker next ctx request w
    = (Returned (any_nil, ErrOpenState), w).
Proof.
  intros Hs He Hle.
  unfold circuitbreaker.Gobreaker, circuitbreaker.Execute, beforeRequest.
  rewrite (@currentState_Open_cooling _ _ _ Hs He Hle), Hs. cbn.
  now rewrite set_breaker_same.
Qed.

(** While a trial call is under way, a HalfOpen breaker rejects. *)
Lemma Gobreaker_HalfOpen_full ctx request (w : World S) :
  state (breaker w) = StateHalfOpen ->
  maxRequests (breaker w) <= Requests (counts (breaker w)) ->
  circuitbreaker.Gobreaker next ctx request w
    = (Returned (any_nil, ErrTooManyRequests), w).
Proof.
  intros Hs Hle.
  unfold circuitbreaker.Gobreaker, circuitbreaker.Execute, beforeRequest.
  rewrite (@currentState_HalfOpen _ (clock w) Hs), Hs.
  destruct (Z.leb_spec (maxRequests (breaker w))
              (Requests (counts (breaker w)))); [|lia].
  cbn. now rewrite set_breaker_same.
Qed.
End BreakerRejections.

Section BreakerCalls.
Import gobreaker breaker_facts.
Context {S : Type}.
Variable next : @Endpoint S.
Hypothesis next_keeps_breaker : keeps_breaker next.

(** A failed call through a Closed breaker. *)
Lemma Gobreaker_Closed_failure ctx request (w : World S) k :
  failed (fst (circuitbreaker.Gobreaker next ctx request w)) = true ->
  state (breaker w) = StateClosed -> expiry (breaker w) = None ->
  default_policy (breaker w) ->
  ConsecutiveFailures (counts (breaker w)) = k -> 0 <= k <= 5 ->
  let w' := snd (circuitbreaker.Gobreaker next ctx request w) in
  default_policy (breaker w') /\
  (k = 5 -> state (breaker w') = StateOpen) /\
  (k < 5 -> state (breaker w') = StateClosed /\ expiry (breaker w') = None /\
            ConsecutiveFailures (counts (breaker w')) = k + 1).
Proof.
  intros Hfail Hs He Hp Hk Hr w'. subst w'.
  pose proof (@afterRequest_Closed_failure (breaker w) (clock w) k Hs He Hp Hk Hr)
    as Hafter.
  cbv zeta in Hafter.
  unfold circuitbreaker.Gobreaker, circuitbreaker.Execute, beforeRequest
    in Hfail |- *.
  rewrite (@currentState_Closed _ (clock w) Hs He), Hs in Hfail |- *.
  set (w1 := set_breaker _ w) in Hfail |- *.
  destruct (next_keeps_breaker ctx request w1) as [Hb Hc].
  destruct (next ctx request w1) as [[[resp err]|reason] w2];
    cbn [fst snd] in *.
  - destruct err as [e|]; [|discriminate Hfail].
    cbn [circuitbreaker.is_nil breaker set_breaker].
    rewrite Hb, Hc. subst w1. cbn [breaker clock set_breaker].
    destruct Hafter as (H1 & H2 & H3).
    split; [exact H1|]. split; [intros Hk5; apply (H2 Hk5) | exact H3].
  - cbn [breaker set_breaker].
    rewrite Hb, Hc. subst w1. cbn [breaker clock set_breaker].
    destruct Hafter as (H1 & H2 & H3).
    split; [exact H1|]. split; [intros Hk5; apply (H2 Hk5) | exact H3].
Qed.

Lemma calls_at_cons t ts (ep : @Endpoint S) ctx request w :
  calls_at (t :: ts) ep ctx request w
    = calls_at ts ep ctx request (snd (ep ctx request (set_clock t w))).
Proof. reflexivity. Qed.

(** A run of failed calls through a Closed breaker that has seen [k]
    consecutive failures: Closed as long as the failures are five or
    less, Open when they are six. *)
Lemma calls_at_Closed_failures ctx request :
  forall ts (w : World S) k,
    all_failed ts (circuitbreaker.Gobreaker next) ctx request w = true ->
    state (breaker w) = StateClosed -> expiry (breaker w) = None ->
    default_policy (breaker w) ->
    ConsecutiveFailures (counts (breaker w)) = k -> 0 <= k <= 5 ->
    let w' := calls_at ts (circuitbreaker.Gobreaker next) ctx request w in
    (k + Z.of_nat (List.length ts) <= 5 ->
       state (breaker w') = StateClosed /\ expiry (breaker w') = None /\
       default_policy (breaker w') /\
       ConsecutiveFailures (counts (breaker w')) = k + Z.of_nat (List.length ts)) /\
    (k + Z.of_nat (List.length ts) = 6 -> state (breaker w') = StateOpen).
Proof.
  intros ts. induction ts as [|t ts IH]; intros w k Hfail Hs He Hp Hk Hk0.
  - cbn. split; [intros _; repeat split; try apply Hp; try assumption; lia|].
    intros Hlen. exfalso. lia.
  - cbv zeta. rewrite calls_at_cons.
    change (Z.of_nat (List.length (t :: ts))) with (Z.of_nat (Datatypes.S (List.length ts))).
    rewrite Nat2Z.inj_succ.
    cbn [all_failed] in Hfail. apply andb_prop in Hfail.
    destruct Hfail as [Hfail1 Hfail2].
    destruct (@Gobreaker_Closed_failure ctx request (set_clock t w) k
                Hfail1 Hs He Hp Hk Hk0) as (Hp' & Hopen & Hclosed).
    assert (Hcase : k = 5 \/ k < 5) by lia.
    destruct Hcase as [-> | Hlt].
    + split; [lia|]. intros Hlen.
      assert (Hnil : ts = []) by (destruct ts; [reflexivity | cbn [List.length] in Hlen; lia]).
      subst ts. cbn. apply Hopen. reflexivity.
    + destruct (Hclosed Hlt) as (Hs' & He' & Hk').
      destruct (IH _ (k + 1) Hfail2 Hs' He' Hp' Hk' ltac:(lia)) as [IH1 IH2].
      split; intros Hlen.
      * destruct (IH1 ltac:(lia)) as (A & B & C & D).
        repeat split; try assumption; try apply C. lia.
      * apply IH2. lia.
Qed.

(** The breaker a trial call runs under, once the cooldown is over. *)
Lemma Gobreaker_trial ctx request (w : World S) t :
  state (breaker w) = StateOpen -> expiry (breaker w) = Some t ->
  t < clock w -> default_policy (breaker w) ->
  let trial :=
    toNewGeneration (with_state (breaker w) StateHalfOpen) (clock w) in
  let w1 :=
    set_breaker (with_counts trial (Counts_onRequest (counts trial))) w in
  let run := circuitbreaker.Gobreaker next ctx request w in
  state (breaker w1) = StateHalfOpen /\
  fst run = fst (next ctx request w1) /\
  (failed (fst (next ctx request w1)) = false ->
     state (breaker (snd run)) = StateClosed /\
     expiry (breaker (snd run)) = None /\
     ConsecutiveFailures (counts (breaker (snd run))) = 0) /\
  (failed (fst (next ctx request w1)) = true ->
     state (breaker (snd run)) = StateOpen /\
     expiry (breaker (snd run)) = Some (clock w + timeout (breaker w))) /\
  (forall other ctx' request',
     circuitbreaker.Gobreaker other ctx' request' w1
       = (Returned (any_nil, ErrTooManyRequests), w1)).
Proof.
  intros Hs He Hlt (Hm & Hi & Ht). cbv zeta.
  set (trial := toNewGeneration (with_state (breaker w) StateHalfOpen) (clock w)).
  set (cb1 := with_counts trial (Counts_onRequest (counts trial))).
  set (w1 := set_breaker cb1 w).
  assert (Hs1 : state cb1 = StateHalfOpen) by reflexivity.
  assert (Hrun :
    circuitbreaker.Gobreaker next ctx request w
      = match next ctx request w1 with
        | (Returned (result, err), w') =>
            (Returned (result, err),
             set_breaker
               (afterRequest (breaker w') (generation trial)
                  (circuitbreaker.is_nil err) (clock w')) w')
        | (Panicked r, w') =>
            (Panicked r,
             set_breaker
               (afterRequest (breaker w') (generation trial) false (clock w'))
               w')
        end).
  { unfold circuitbreaker.Gobreaker, circuitbreaker.Execute, beforeRequest.
    rewrite (@currentState_Open_expired _ _ _ Hs He Hlt).
    fold trial. cbn [state trial toNewGeneration with_state].
    change (maxRequests trial) with (maxRequests (breaker w)).
    change (Requests (counts trial)) with 0.
    rewrite Hm. reflexivity. }
  assert (Hsucc : forall now,
    state (afterRequest cb1 (generation trial) true now) = StateClosed /\
    expiry (afterRequest cb1 (generation trial) true now) = None /\
    ConsecutiveFailures (counts (afterRequest cb1 (generation trial) true now))
      = 0).
  { intros now. unfold afterRequest.
    rewrite (@currentState_HalfOpen cb1 now Hs1).
    cbn [generation cb1 with_counts]. rewrite Z.eqb_refl. cbn [negb].
    unfold onSuccess. rewrite Hs1.
    cbn [maxRequests with_counts cb1 trial toNewGeneration with_state counts
         ConsecutiveSuccesses Counts_onSuccess Counts_onRequest Counts_clear].
    rewrite Hm. rewrite u32_small by lia. cbn [Z.add Z.leb Z.compare Pos.compare Pos.compare_cont].
    split; [apply setState_state|].
    apply setState_Closed_expiry; [reflexivity | exact Hi]. }
  assert (Hfailure : forall now,
    state (afterRequest cb1 (generation trial) false now) = StateOpen /\
    expiry (afterRequest cb1 (generation trial) false now)
      = Some (now + timeout (breaker w))).
  { intros now. unfold afterRequest.
    rewrite (@currentState_HalfOpen cb1 now Hs1).
    cbn [generation cb1 with_counts]. rewrite Z.eqb_refl. cbn [negb].
    unfold onFailure. rewrite Hs1.
    split; [apply setState_state|].
    rewrite setState_Open_expiry; [reflexivity|].
    rewrite Hs1. discriminate. }
  split; [reflexivity|].
  rewrite Hrun.
  destruct (next_keeps_breaker ctx request w1) as [Hb Hc].
  destruct (next ctx request w1) as [[[resp err]|reason] w2];
    cbn [fst snd failed breaker set_breaker] in *.
  - split; [reflexivity|]. rewrite Hb, Hc. subst w1. cbn [breaker clock set_breaker].
    split; [|split].
    + destruct err; [discriminate|]. intros _. apply Hsucc.
    + destruct err; [|discriminate]. intros _. apply Hfailure.
    + intros other ctx' request'.
      apply Gobreaker_HalfOpen_full; [exact Hs1|].
      change (maxRequests (breaker w) <= u32 (0 + 1)).
      rewrite Hm, u32_small by lia. lia.
  - split; [reflexivity|]. rewrite Hb, Hc. subst w1. cbn [breaker clock set_breaker].
    split; [|split].
    + discriminate.
    + intros _. apply Hfailure.
    + intros other ctx' request'.
      apply Gobreaker_HalfOpen_full; [exact Hs1|].
      change (maxRequests (breaker w) <= u32 (0 + 1)).
      rewrite Hm, u32_small by lia. lia.
Qed.
End BreakerCalls.

(** The endpoints the breaker wraps in endpoints.New leave the breaker and
    the clock alone, when the Service does. *)
Section WrappedEndpoints.
Context {S : Type}.

Lemma stub_keeps_breaker :
  @service_keeps_breaker S stubPreamblesvcService_Preamble.
Proof. intros ctx msg w. split; reflexivity. Qed.

Lemma MakePreambleEndpoint_keeps_breaker
    (V : Request PreambleRequest) (svc : @PreamblesvcService S) :
  service_keeps_breaker svc ->
  keeps_breaker (@MakePreambleEndpoint S V svc).
Proof.
  intros Hsvc ctx request w.
  destruct request as [|req|r|t]; try (split; reflexivity).
  unfold MakePreambleEndpoint, bind, assert_PreambleRequest, ret.
  destruct (@validate _ V req) as [e|]; [split; reflexivity|].
  unfold invoke.
  destruct (Hsvc ctx (Msg req) (record (EvServiceCall ctx (Msg req)) w))
    as [Hb Hc].
  destruct (svc ctx (Msg req) (record (EvServiceCall ctx (Msg req)) w))
    as [[[rs err]|reason] w']; cbn [fst snd] in *; split; assumption.
Qed.

Lemma NewErroringLimiter_keeps_breaker (next : @Endpoint S) :
  keeps_breaker next -> keeps_breaker (ratelimit.NewErroringLimiter next).
Proof.
  intros Hnext ctx request w. unfold ratelimit.NewErroringLimiter.
  destruct (rate.Allow (limiter w) (clock w)) as [[|] lim].
  - apply (Hnext ctx request (set_limiter lim w)).
  - split; reflexivity.
Qed.
End WrappedEndpoints.

Lemma NewCircuitBreaker_ready (st : gobreaker.Settings) (now : Time) :
  gobreaker.MaxRequests st = 0 -> gobreaker.Interval st = 0 ->
  gobreaker.ReadyToTrip st = None ->
  let cb := gobreaker.NewCircuitBreaker st now in
  gobreaker.state cb = gobreaker.StateClosed /\
  gobreaker.expiry cb = None /\
  default_policy cb /\
  gobreaker.ConsecutiveFailures (gobreaker.counts cb) = 0.
Proof.
  intros Hm Hi Ht. unfold gobreaker.NewCircuitBreaker, default_policy.
  cbn. rewrite Hm, Hi, Ht. cbn. repeat split.
Qed.



(** ** The Service logging decorator *)

(** The decorator of the spec returns what the wrapped Service returns
    for the same context and message, and writes one entry after it with
    the method, the message and the resulting error. *)
Lemma loggingMiddleware_Preamble_spec_observes
    (S : Type) (lm : @servicelogging.loggingMiddleware S)
    (ctx : Context) (msg : int64) (w : World S) :
  exists run,
    servicelogging.loggingMiddleware_Preamble_spec lm ctx msg = Some run /\
    fst (run w) = fst (servicelogging.next lm ctx msg w) /\
    events (snd (run w))
      = (events (snd (servicelogging.next lm ctx msg w))
          ++ [EvLog (servicelogging.logger lm
                       ++ [("method", LStr "Preable"); ("msg", LInt msg);
                           ("err",
                            LErr (match fst (servicelogging.next lm ctx msg w) with
                                  | Returned (_, err) => err
                                  | Panicked _ => None
                                  end))])])%list.
Proof.
  eexists. split; [reflexivity|].
  unfold defer_.
  destruct (servicelogging.next lm ctx msg w) as [[[rs err]|reason] w'];
    split; reflexivity.
Qed.

(** C8, on the code as written: the method forwards
    [lm.next.Preamble(ctx, a, b)]; [a] and [b] are not declared in its
    scope and the wrapped method takes a context and one int64, so the
    call resolves to nothing: for no decorator, context and message does
    the method return the pair of the wrapped Service. *)
Theorem loggingMiddleware_Preamble_unresolved
    (S : Type) (lm : @servicelogging.loggingMiddleware S)
    (ctx : Context) (msg : int64) :
  servicelogging.resolve (servicelogging.Preamble_scope ctx msg)
    servicelogging.Preamble_forwarded = None /\
  servicelogging.loggingMiddleware_Preamble lm ctx msg = None.
Proof. split; reflexivity. Qed.

(** * Further properties of the code *)

(** ** What grpcEncodeError lets through *)

Lemma status_Error_wire_safe (c : codes.Code) (msg : string) :
  wire_safe (status.Error c msg) = true.
Proof. unfold status.Error. destruct c; reflexivity. Qed.

Lemma grpcEncodeError_safe (e : error) : wire_safe (grpcEncodeError e) = true.
Proof.
  destruct e as [[s|[c m]|text [c m]]|];
    [reflexivity| | |reflexivity]; apply status_Error_wire_safe.
Qed.

(** X1: whatever the error, grpcEncodeError returns nil or an error
    with a gRPC status whose code is not OK; a plain error never leaves
    it, and neither does a status OK dressed as an error. *)
Theorem grpcEncodeError_wire_safe (e : error) :
  wire_safe (grpcEncodeError e) = true /\
  (forall s, grpcEncodeError e <> Some (errorString s)) /\
  (forall m, grpcEncodeError e
             <> Some (statusError {| st_code := codes.OK; st_message := m |})).
Proof.
  pose proof (grpcEncodeError_safe e) as H.
  split; [exact H|].
  split; intros x Hx; rewrite Hx in H; discriminate H.
Qed.

(** X2: grpcEncodeError returns nil exactly for nil and for an error
    whose status has the code OK.  An error with any other status comes
    back as the status error of the same code and message, built anew:
    what else the error was (the details of its status, a type and a
    text of its own) is not kept.  Every error without a status is
    mapped to the one Internal error, so that two such errors cannot be
    told apart on the wire. *)
Theorem grpcEncodeError_cases (e : error) :
  (grpcEncodeError e = None <->
   e = None \/
   exists ev st, e = Some ev /\ status.FromError ev = (st, true) /\
                 st_code st = codes.OK) /\
  (forall ev st, e = Some ev -> status.FromError ev = (st, true) ->
     st_code st <> codes.OK ->
     grpcEncodeError e = Some (statusError st) /\
     wire_status (grpcEncodeError e) = Some st) /\
  (forall s s', e = errors.New s ->
     grpcEncodeError e = grpcEncodeError (errors.New s') /\
     wire_status (grpcEncodeError e)
       = Some {| st_code := codes.Internal;
                 st_message := "internal server error" |}).
Proof.
  split; [|split].
  - split.
    + destruct e as [[s|[c m]|text [c m]]|]; [discriminate| | |auto];
        cbn; unfold status.Error;
        destruct c; cbn; try discriminate; intros _; right;
        eexists; eexists; repeat split.
    + intros [->|(ev & st & -> & Hf & Hc)]; [reflexivity|].
      unfold grpcEncodeError. rewrite Hf. unfold status.Error.
      rewrite Hc. reflexivity.
  - intros ev [c m] -> Hf Hc. cbn in Hc.
    unfold grpcEncodeError. rewrite Hf. cbn [st_code st_message].
    unfold status.Error.
    destruct c; try (split; reflexivity). now elim Hc.
  - intros s s' ->. split; reflexivity.
Qed.

Lemma grpcEncodeError_cases_witness :
  (grpcEncodeError
     (Some (otherStatusError "cell 7: no such cell"
              {| st_code := codes.NotFound; st_message := "no such cell" |}))
     = Some (statusError
               {| st_code := codes.NotFound; st_message := "no such cell" |}) /\
   wire_status
     (grpcEncodeError
        (Some (otherStatusError "cell 7: no such cell"
                 {| st_code := codes.NotFound;
                    st_message := "no such cell" |})))
     = Some {| st_code := codes.NotFound; st_message := "no such cell" |}) /\
  grpcEncodeError (errors.New "dial tcp 10.0.0.7: refused")
    = grpcEncodeError (errors.New "not found").
Proof.
  split.
  - apply (proj1 (proj2 (grpcEncodeError_cases
                           (Some (otherStatusError "cell 7: no such cell"
                                    {| st_code := codes.NotFound;
                                       st_message := "no such cell" |}))))
             (otherStatusError "cell 7: no such cell"
                {| st_code := codes.NotFound; st_message := "no such cell" |})
             {| st_code := codes.NotFound; st_message := "no such cell" |}
             eq_refl eq_refl).
    discriminate.
  - apply (proj2 (proj2 (grpcEncodeError_cases
                           (errors.New "dial tcp 10.0.0.7: refused")))
             "dial tcp 10.0.0.7: refused" "not found" eq_refl).
Defined.

(** ** The reply codecs *)

(** X3: encoding a PreambleResponse and decoding the reply gives back
    its Rs, and never its Err: the Err field travels as the error of the
    encoder, mapped by grpcEncodeError, and the decoded response has a
    nil Err and comes with a nil error. *)
Theorem PreambleResponse_round_trip (ctx ctx' : Context) (r : PreambleResponse) :
  exists reply,
    encodeGRPCPreambleResponse ctx (any_PreambleResponse r)
      = Returned (reply, grpcEncodeError (Err r)) /\
    decodeGRPCPreambleResponse ctx' reply
      = Returned (any_PreambleResponse {| Rs := Rs r; Err := None |}, None).
Proof. eexists. split; reflexivity. Qed.

(** X4: the encoder takes every response the bare endpoint returns: it
    does not panic on it, it puts the Rs of the response in the reply,
    and its error is nil, also when the endpoint returned an error. *)
Theorem encodeGRPCPreambleResponse_of_endpoint
    (S : Type) (V : Request PreambleRequest) (svc : @PreamblesvcService S)
    (ctx ctx' : Context) (request resp : any) (err : error) (w w' : World S) :
  @MakePreambleEndpoint S V svc ctx request w = (Returned (resp, err), w') ->
  exists rs,
    resp = any_PreambleResponse {| Rs := rs; Err := None |} /\
    encodeGRPCPreambleResponse ctx' resp
      = Returned (grpc_PreambleReply {| pb.Rs := rs |}, None).
Proof.
  intros H.
  destruct (MakePreambleEndpoint_returns_request V svc ctx request w H)
    as [req ->].
  destruct (@validate _ V req) as [e0|] eqn:Hv.
  - rewrite (MakePreambleEndpoint_invalid V svc ctx req w Hv) in H.
    inversion H; subst. exists 0. split; reflexivity.
  - rewrite (MakePreambleEndpoint_valid V svc ctx req w Hv) in H.
    destruct (invoke svc ctx (Msg req) w) as [[[rs err1]|r] w1];
      inversion H; subst.
    exists rs. split; reflexivity.
Qed.

Lemma encodeGRPCPreambleResponse_of_endpoint_witness :
  exists rs,
    any_PreambleResponse {| Rs := 0; Err := None |}
      = any_PreambleResponse {| Rs := rs; Err := None |} /\
    encodeGRPCPreambleResponse []
        (any_PreambleResponse {| Rs := 0; Err := None |})
      = Returned (grpc_PreambleReply {| pb.Rs := rs |}, None).
Proof.
  apply (@encodeGRPCPreambleResponse_of_endpoint unit PreambleRequest_Request
           samples.failing_service [] [] samples.request5
           (any_PreambleResponse {| Rs := 0; Err := None |})
           (errors.New "not found") samples.fresh_world
           (record (EvServiceCall [] 5) samples.fresh_world)).
  reflexivity.
Defined.

(** ** The server method *)

(** X5: whatever the handler, when grpcServer.Preamble returns, the
    handler has returned, in the same world, and: the error is the
    handler's error mapped by grpcEncodeError, so one a peer can read
    (nil or a status that is not OK); when the handler's error is not nil
    the reply is nil; when it is nil the reply is the handler's own
    reply, a PreambleReply. *)
Theorem grpcServer_Preamble_returns
    (S Req : Type) (s : @grpcServer S Req) (ctx : Context) (req : Req)
    (w w' : World S) (rep : grpc_any) (err : error) :
  grpcServer_Preamble s ctx req w = (Returned (rep, err), w') ->
  exists ctx' rp herr,
    preamble s ctx req w = (Returned (ctx', rp, herr), w') /\
    err = grpcEncodeError herr /\
    wire_safe err = true /\
    (herr <> None -> rep = grpc_nil) /\
    (herr = None -> rep = rp /\ exists r, rp = grpc_PreambleReply r).
Proof.
  unfold grpcServer_Preamble, bind.
  destruct (preamble s ctx req w) as [[[[c rp] herr]|reason] w1];
    [|discriminate].
  destruct herr as [e|].
  - unfold ret. intros H. inversion H; subst.
    exists c, rp, (Some e). split; [reflexivity|]. split; [reflexivity|].
    split; [exact (grpcEncodeError_safe (Some e))|].
    split; [reflexivity | discriminate].
  - destruct rp as [|r|t]; cbn; try discriminate.
    intros H. inversion H; subst.
    exists c, (grpc_PreambleReply r), None.
    split; [reflexivity|]. split; [reflexivity|]. split; [reflexivity|].
    split; [intros Hn; now elim Hn|].
    intros _. split; [reflexivity | now exists r].
Qed.

Lemma grpcServer_Preamble_returns_witness :
  exists ctx' rp herr,
    @ret unit _ ([] : Context, grpc_PreambleReply {| pb.Rs := 5 |},
                 (None : error)) samples.fresh_world
      = (Returned (ctx', rp, herr), samples.fresh_world) /\
    None = grpcEncodeError herr /\
    wire_safe None = true /\
    (herr <> None -> grpc_PreambleReply {| pb.Rs := 5 |} = grpc_nil) /\
    (herr = None ->
     grpc_PreambleReply {| pb.Rs := 5 |} = rp /\
     exists r, rp = grpc_PreambleReply r).
Proof.
  pose (h := fun (_ : Context) (_ : unit) =>
               @ret unit _ ([] : Context, grpc_PreambleReply {| pb.Rs := 5 |},
                            (None : error))).
  exact (@grpcServer_Preamble_returns unit unit
           {| preamble := h; concat := h |} [] tt samples.fresh_world
           samples.fresh_world (grpc_PreambleReply {| pb.Rs := 5 |}) None
           eq_refl).
Defined.

(** ** The bare endpoint and the endpoint set as a Service *)

Lemma service_calls_record_call (S : Type) (ctx : Context) (msg : int64)
    (w : World S) :
  service_calls (record (EvServiceCall ctx msg) w)
    = Datatypes.S (service_calls w).
Proof.
  unfold service_calls, record. cbn [events].
  rewrite filter_app, length_app. cbn. apply Nat.add_1_r.
Qed.

(** X6: a request that is not a PreambleRequest makes the bare endpoint
    panic at once: validate and the Service are not called and the world
    is left as it was. *)
Theorem MakePreambleEndpoint_wrong_type
    (S : Type) (V : Request PreambleRequest) (svc : @PreamblesvcService S)
    (ctx : Context) (request : any) (w : World S) :
  (forall req, request <> any_PreambleRequest req) ->
  exists reason,
    @MakePreambleEndpoint S V svc ctx request w = (Panicked reason, w).
Proof.
  intros H. destruct request as [|req|r|t];
    try (eexists; reflexivity).
  now elim (H req).
Qed.

Lemma MakePreambleEndpoint_wrong_type_witness :
  exists reason,
    @MakePreambleEndpoint unit PreambleRequest_Request
      samples.failing_service []
      (any_PreambleResponse {| Rs := 5; Err := None |}) samples.fresh_world
      = (Panicked reason, samples.fresh_world).
Proof.
  apply (@MakePreambleEndpoint_wrong_type unit PreambleRequest_Request
           samples.failing_service []
           (any_PreambleResponse {| Rs := 5; Err := None |})
           samples.fresh_world).
  intros req. discriminate.
Defined.

(** X7: with the validate of requests.go no PreambleRequest is refused,
    whatever its message: over a Service that keeps to its own state the
    bare endpoint calls the Service exactly once, with the context and
    the message it was given, and returns the result of the Service in
    Rs and its error as the second value. *)
Theorem MakePreambleEndpoint_calls_once
    (S : Type) (f : Context -> int64 -> S -> (int64 * error) * S)
    (ctx : Context) (req : PreambleRequest) (w : World S) :
  let run :=
    @MakePreambleEndpoint S PreambleRequest_Request (pure_service f) ctx
      (any_PreambleRequest req) w in
  fst run
    = Returned (any_PreambleResponse
                  {| Rs := fst (fst (f ctx (Msg req) (svc_state w)));
                     Err := None |},
                snd (fst (f ctx (Msg req) (svc_state w)))) /\
  events (snd run) = (events w ++ [EvServiceCall ctx (Msg req)])%list /\
  svc_state (snd run) = snd (f ctx (Msg req) (svc_state w)) /\
  service_calls (snd run) = Datatypes.S (service_calls w).
Proof.
  cbv zeta.
  rewrite (@MakePreambleEndpoint_valid S PreambleRequest_Request
             (pure_service f) ctx req w eq_refl).
  unfold invoke, pure_service. cbn [svc_state record].
  destruct (f ctx (Msg req) (svc_state w)) as [[rs err] s'].
  cbn [fst snd]. repeat split.
  apply (service_calls_record_call ctx (Msg req) w).
Qed.

(** X8: the endpoint set over the bare endpoint is the Service again,
    but for one thing: a result the Service returns together with an
    error is dropped, the caller gets 0 and the error. *)
Theorem Endpoints_Preamble_of_service
    (S : Type) (svc : @PreamblesvcService S) (ctx : Context) (msg : int64)
    (w : World S) :
  Endpoints_Preamble
    {| PreambleEndpoint :=
         @MakePreambleEndpoint S PreambleRequest_Request svc |} ctx msg w
    = match invoke svc ctx msg w with
      | (Returned (rs, None), w') => (Returned (rs, None), w')
      | (Returned (_, Some e), w') => (Returned (0, Some e), w')
      | (Panicked reason, w') => (Panicked reason, w')
      end.
Proof.
  unfold Endpoints_Preamble, bind. cbn [PreambleEndpoint].
  rewrite (@MakePreambleEndpoint_valid S PreambleRequest_Request svc ctx
             {| Msg := msg |} w eq_refl).
  cbn [Msg].
  destruct (invoke svc ctx msg w) as [[[rs [e|]]|reason] w']; reflexivity.
Qed.

(** ** The endpoint of endpoints.New, call by call *)

Section NewCalls.
Import gobreaker.
Context {S : Type}.
Variable svc : @PreamblesvcService S.

(** New's endpoint is the guarded endpoint between the two span starts
    and the two span ends, with the log entry after them. *)
Lemma New_endpoint_run logger otTracer zipkinTracer ctx request (w : World S) :
  PreambleEndpoint (New svc logger otTracer zipkinTracer) ctx request w
    = let run :=
        New_guarded svc (New_traced_context ctx) request
          (record (EvSpanStart otTracer "sum")
             (record (EvSpanStart zipkinTracer "sum") w)) in
      (fst run,
       record
         (EvLog (log.With logger "method" (LStr "sum")
                   ++ [("transport_error", LErr (outcome_err (fst run)));
                       ("took", LDur (clock (snd run) - clock w))]))
         (record (EvSpanFinish zipkinTracer "sum")
            (record (EvSpanFinish otTracer "sum") (snd run)))).
Proof.
  cbv zeta.
  unfold New, PreambleEndpoint, LoggingMiddleware, zipkin.TraceEndpoint,
    opentracing.TraceServer, defer_, New_guarded, New_traced_context.
  match goal with
  | |- context [circuitbreaker.Gobreaker ?n ?c ?r ?x] =>
      destruct (circuitbreaker.Gobreaker n c r x) as [[[resp err]|reason] w1]
  end; cbn [fst snd outcome_err named_err]; reflexivity.
Qed.

(** The guarded endpoint on a PreambleRequest, by what the breaker and
    the limiter answer. *)
Lemma New_guarded_run ctx req (w : World S) g berr cb1 ok lim1 :
  beforeRequest (breaker w) (clock w) = (g, berr, cb1) ->
  rate.Allow (limiter w) (clock w) = (ok, lim1) ->
  New_guarded svc ctx (any_PreambleRequest req) w
    = match berr with
      | Some e => (Returned (any_nil, Some e), set_breaker cb1 w)
      | None =>
          if ok then
            match svc ctx (Msg req)
                    (record (EvServiceCall ctx (Msg req))
                       (set_limiter lim1 (set_breaker cb1 w))) with
            | (Returned (rs, err), w2) =>
                (Returned (any_PreambleResponse {| Rs := rs; Err := None |}, err),
                 set_breaker
                   (afterRequest (breaker w2) g (circuitbreaker.is_nil err)
                      (clock w2)) w2)
            | (Panicked reason, w2) =>
                (Panicked reason,
                 set_breaker (afterRequest (breaker w2) g false (clock w2)) w2)
            end
          else
            (Returned (any_nil, ratelimit.ErrLimited),
             set_breaker (afterRequest cb1 g false (clock w))
               (set_limiter lim1 (set_breaker cb1 w)))
      end.
Proof.
  intros Hb Ha.
  unfold New_guarded, circuitbreaker.Gobreaker, circuitbreaker.Execute.
  rewrite Hb. destruct berr as [e|]; [reflexivity|].
  unfold ratelimit.NewErroringLimiter.
  cbn [limiter clock set_breaker]. rewrite Ha.
  destruct ok; [|reflexivity].
  unfold MakePreambleEndpoint, bind, assert_PreambleRequest, ret, invoke.
  cbn [validate PreambleRequest_Request].
  match goal with
  | |- context [svc ?c ?m ?x] =>
      destruct (svc c m x) as [[[rs err]|reason] w2]
  end; reflexivity.
Qed.

(** A Closed breaker that never clears its counts admits the call. *)
Lemma beforeRequest_Closed (cb : CircuitBreaker) (now : Time) :
  state cb = StateClosed -> expiry cb = None ->
  beforeRequest cb now
    = (generation cb, None, with_counts cb (Counts_onRequest (counts cb))).
Proof.
  intros Hs He. unfold beforeRequest.
  rewrite (@breaker_facts.currentState_Closed cb now Hs He), Hs.
  reflexivity.
Qed.
End NewCalls.

(** X9: used as a Service, the endpoint set of New never panics over a
    Service that never panics: a call the breaker or the limiter rejects
    comes back with an error, and a call that comes back without one
    carries a PreambleResponse, so that the type assertions of
    MakePreambleEndpoint and of Endpoints.Preamble cannot fail. *)
Theorem Endpoints_Preamble_of_New_returns
    (S : Type) (svc : @PreamblesvcService S) (logger : Logger)
    (otTracer zipkinTracer : Tracer) (ctx : Context) (msg : int64)
    (w : World S) :
  (forall ctx' msg' w1, exists r w2, svc ctx' msg' w1 = (Returned r, w2)) ->
  exists r w',
    Endpoints_Preamble (New svc logger otTracer zipkinTracer) ctx msg w
      = (Returned r, w').
Proof.
  intros Hsvc. unfold Endpoints_Preamble, bind.
  rewrite New_endpoint_run. cbv zeta.
  set (w0 := record (EvSpanStart otTracer "sum")
               (record (EvSpanStart zipkinTracer "sum") w)).
  destruct (gobreaker.beforeRequest (breaker w0) (clock w0))
    as [[g berr] cb1] eqn:Hb.
  destruct (rate.Allow (limiter w0) (clock w0)) as [ok lim1] eqn:Ha.
  rewrite (@New_guarded_run S svc (New_traced_context ctx) {| Msg := msg |}
             w0 g berr cb1 ok lim1 Hb Ha).
  destruct berr as [e|]; [eexists; eexists; reflexivity|].
  destruct ok; [|eexists; eexists; reflexivity].
  match goal with
  | |- context [svc ?c ?m ?x] =>
      destruct (Hsvc c m x) as ([rs err] & w2 & Hr); rewrite Hr
  end.
  destruct err as [e|]; eexists; eexists; reflexivity.
Qed.

Lemma Endpoints_Preamble_of_New_returns_witness :
  exists r w',
    Endpoints_Preamble (New samples.failing_service [] "ot" "zk") [] 5
      samples.drained_world
      = (Returned r, w').
Proof.
  apply (@Endpoints_Preamble_of_New_returns unit samples.failing_service []
           "ot" "zk" [] 5 samples.drained_world).
  intros ctx' msg' w1. eexists. eexists. reflexivity.
Defined.

(** X10: one call of New's endpoint over a Service that keeps to its own
    state, on a PreambleRequest.  The call is admitted when the breaker
    lets it pass and the limiter grants a token.  The events it leaves
    are, in this order: the zipkin span start, the opentracing span
    start, the one call of the Service if the call is admitted (with the
    message of the request and the context that carries both spans), the
    two span ends, and one log entry with the error of the call.  A call
    that is not admitted returns an error and leaves the state of the
    Service alone. *)
Theorem New_endpoint_trace
    (S : Type) (f : Context -> int64 -> S -> (int64 * error) * S)
    (logger : Logger) (otTracer zipkinTracer : Tracer) (ctx : Context)
    (req : PreambleRequest) (w : World S) :
  let admitted :=
    circuitbreaker.is_nil
      (snd (fst (gobreaker.beforeRequest (breaker w) (clock w))))
    && fst (rate.Allow (limiter w) (clock w)) in
  let served := f (New_traced_context ctx) (Msg req) (svc_state w) in
  let run :=
    PreambleEndpoint (New (pure_service f) logger otTracer zipkinTracer) ctx
      (any_PreambleRequest req) w in
  events (snd run)
    = (events w
       ++ [EvSpanStart zipkinTracer "sum"; EvSpanStart otTracer "sum"]
       ++ (if admitted
           then [EvServiceCall (New_traced_context ctx) (Msg req)] else [])
       ++ [EvSpanFinish otTracer "sum"; EvSpanFinish zipkinTracer "sum";
           EvLog (log.With logger "method" (LStr "sum")
                    ++ [("transport_error", LErr (outcome_err (fst run)));
                        ("took", LDur 0)])])%list /\
  (if admitted
   then fst run
          = Returned (any_PreambleResponse
                        {| Rs := fst (fst served); Err := None |},
                      snd (fst served)) /\
        svc_state (snd run) = snd served
   else circuitbreaker.is_nil (outcome_err (fst run)) = false /\
        svc_state (snd run) = svc_state w).
Proof.
  cbv zeta.
  destruct (gobreaker.beforeRequest (breaker w) (clock w))
    as [[g berr] cb1] eqn:Hb.
  destruct (rate.Allow (limiter w) (clock w)) as [ok lim1] eqn:Ha.
  rewrite New_endpoint_run. cbv zeta.
  set (w0 := record (EvSpanStart otTracer "sum")
               (record (EvSpanStart zipkinTracer "sum") w)).
  rewrite (@New_guarded_run S (pure_service f) (New_traced_context ctx) req
             w0 g berr cb1 ok lim1 Hb Ha).
  cbn [fst snd].
  destruct berr as [e|]; cbn [circuitbreaker.is_nil andb].
  - cbn [fst snd outcome_err events record set_breaker clock svc_state w0].
    rewrite Z.sub_diag, <- !app_assoc. cbn [app]. repeat split.
  - destruct ok.
    + unfold pure_service.
      cbn [svc_state record set_limiter set_breaker w0].
      destruct (f (New_traced_context ctx) (Msg req) (svc_state w))
        as [[rs err] s'].
      cbn [fst snd outcome_err events record set_breaker set_svc_state
           set_limiter clock svc_state w0 breaker].
      rewrite Z.sub_diag, <- !app_assoc. cbn [app]. repeat split.
    + cbn [fst snd outcome_err events record set_breaker set_limiter clock
           svc_state w0 ratelimit.ErrLimited errors.New circuitbreaker.is_nil].
      rewrite Z.sub_diag, <- !app_assoc. cbn [app]. repeat split.
Qed.

(** ** The token bucket of New under a burst *)

Section Bucket.
Variables (every burst : Z) (now : Time).
Hypothesis every_pos : 0 < every.

Lemma NewLimiter_charged : charged every burst now (rate.NewLimiter every burst) 0.
Proof.
  unfold charged, rate.NewLimiter. cbn. repeat split; auto. f_equal. lia.
Qed.

Lemma Allow_charged_grant (lim : rate.Limiter) (k : Z) :
  0 <= k < burst -> charged every burst now lim k ->
  fst (rate.Allow lim now) = true /\
  charged every burst now (snd (rate.Allow lim now)) (k + 1).
Proof.
  intros Hk (He & Hb & Ht & Hl). destruct lim as [e b t l]. cbn in *. subst.
  unfold rate.Allow, rate.advance. cbn.
  assert (Hcap : Z.min ((burst - k) * every + (now - Z.min l now))
                   (burst * every) = (burst - k) * every).
  { destruct Hl as [-> | ->].
    - rewrite Z.sub_0_r. apply Z.min_r. lia.
    - rewrite Z.min_id, Z.sub_diag, Z.add_0_r. apply Z.min_l. nia. }
  rewrite Hcap.
  destruct (Z.leb_spec 0 ((burst - k) * every - every)) as [_|Hneg]; [|nia].
  cbn. unfold charged. cbn. repeat split; auto. lia.
Qed.

Lemma Allow_charged_deny (lim : rate.Limiter) :
  0 <= burst -> charged every burst now lim burst ->
  fst (rate.Allow lim now) = false /\
  charged every burst now (snd (rate.Allow lim now)) burst.
Proof.
  intros Hk (He & Hb & Ht & Hl). destruct lim as [e b t l]. cbn in *. subst.
  unfold rate.Allow, rate.advance. cbn.
  rewrite Z.sub_diag in *. cbn [Z.mul Z.add].
  assert (Hcap : Z.min (now - Z.min l now) (burst * every) - every < 0).
  { destruct Hl as [-> | ->].
    - rewrite Z.mul_0_l. lia.
    - rewrite Z.min_id, Z.sub_diag. nia. }
  destruct (Z.leb_spec 0 (Z.min (now - Z.min l now) (burst * every) - every));
    [lia|].
  cbn. unfold charged. cbn. rewrite Z.sub_diag. repeat split; auto.
  destruct Hl as [-> | ->]; [now left | right; apply Z.min_id].
Qed.

Lemma allow_n_grants (n : nat) :
  forall (lim : rate.Limiter) (k : Z),
    0 <= k -> k + Z.of_nat n <= burst -> charged every burst now lim k ->
    fst (allow_n n lim now) = repeat true n /\
    charged every burst now (snd (allow_n n lim now)) (k + Z.of_nat n).
Proof.
  induction n as [|n IH]; intros lim k Hk Hn Hc.
  - cbn. rewrite Z.add_0_r. now split.
  - rewrite Nat2Z.inj_succ in *.
    destruct (@Allow_charged_grant lim k ltac:(lia) Hc) as [Hok Hc1].
    cbn [allow_n].
    destruct (rate.Allow lim now) as [ok lim1]. cbn [fst snd] in *. subst ok.
    destruct (IH lim1 (k + 1) ltac:(lia) ltac:(lia) Hc1) as [Hoks Hc2].
    destruct (allow_n n lim1 now) as [oks lim2]. cbn [fst snd] in *.
    split; [now rewrite Hoks|].
    replace (k + Z.succ (Z.of_nat n)) with (k + 1 + Z.of_nat n) by lia.
    exact Hc2.
Qed.

Lemma allow_n_unfold (n : nat) (lim : rate.Limiter) :
  allow_n (Datatypes.S n) lim now
    = (let '(ok, lim1) := rate.Allow lim now in
       let '(oks, lim2) := allow_n n lim1 now in
       (ok :: oks, lim2)).
Proof. reflexivity. Qed.

Lemma allow_n_succ (n : nat) (lim : rate.Limiter) :
  allow_n (Datatypes.S n) lim now
    = (fst (allow_n n lim now)
         ++ [fst (rate.Allow (snd (allow_n n lim now)) now)],
       snd (rate.Allow (snd (allow_n n lim now)) now))%list.
Proof.
  revert lim. induction n as [|n IH]; intros lim.
  - cbn [allow_n fst snd]. destruct (rate.Allow lim now); reflexivity.
  - rewrite (allow_n_unfold (Datatypes.S n) lim), !(allow_n_unfold n lim).
    destruct (rate.Allow lim now) as [ok lim1].
    rewrite (IH lim1).
    destruct (allow_n n lim1 now) as [oks lim2]. reflexivity.
Qed.
End Bucket.

(** X12: the token bucket New builds, under a burst.  From the full
    bucket of size B, with one token per interval, B + 1 calls at one
    instant are granted B times and denied once, the last; one interval
    later a call is granted again. *)
Theorem NewLimiter_burst (every : Duration) (B : nat) (now : Time) :
  0 < every -> (1 <= B)%nat ->
  let lim := rate.NewLimiter (rate.Every every) (Z.of_nat B) in
  fst (allow_n (Datatypes.S B) lim now) = (repeat true B ++ [false])%list /\
  fst (rate.Allow (snd (allow_n (Datatypes.S B) lim now)) (now + every)) = true.
Proof.
  intros He HB. cbv zeta. unfold rate.Every.
  destruct (@allow_n_grants every (Z.of_nat B) now He B
              (rate.NewLimiter every (Z.of_nat B)) 0 ltac:(lia) ltac:(lia)
              (NewLimiter_charged every (Z.of_nat B) now)) as [Hoks Hc].
  rewrite Z.add_0_l in Hc.
  destruct (@Allow_charged_deny every (Z.of_nat B) now He _ ltac:(lia) Hc)
    as [Hno Hc'].
  rewrite allow_n_succ. cbn [fst snd]. rewrite Hoks, Hno.
  split; [reflexivity|].
  destruct Hc' as (E1 & E2 & E3 & E4).
  destruct (snd (rate.Allow (snd (allow_n B (rate.NewLimiter every (Z.of_nat B)) now)) now))
    as [e b t l].
  cbn in E1, E2, E3, E4. subst e b t.
  assert (l = now) as -> by (destruct E4; [lia | assumption]).
  unfold rate.Allow, rate.advance. cbn.
  rewrite Z.sub_diag. cbn [Z.mul Z.add].
  replace (Z.min now (now + every)) with now by lia.
  replace (now + every - now) with every by lia.
  replace (Z.min every (Z.of_nat B * every)) with every by nia.
  rewrite Z.sub_diag. reflexivity.
Qed.

Lemma NewLimiter_burst_witness :
  fst (allow_n 101 (rate.NewLimiter (rate.Every Second) 100) (5 * Second))
    = (repeat true 100 ++ [false])%list /\
  fst (rate.Allow
         (snd (allow_n 101 (rate.NewLimiter (rate.Every Second) 100)
                 (5 * Second)))
         (5 * Second + Second)) = true.
Proof.
  apply (@NewLimiter_burst Second 100 (5 * Second)).
  - reflexivity.
  - repeat constructor.
Defined.

(** ** Rejections of the limiter under the breaker *)

Lemma Allow_denied_again (lim lim1 : rate.Limiter) (now : Time) :
  rate.Allow lim now = (false, lim1) -> rate.Allow lim1 now = (false, lim1).
Proof.
  unfold rate.Allow, rate.advance. cbn.
  destruct (0 <=? Z.min (rate.lim_tokens lim
                          + (now - Z.min (rate.lim_last lim) now))
                    (rate.lim_burst lim * rate.lim_every lim)
                  - rate.lim_every lim) eqn:E; [discriminate|].
  intros H. inversion H; subst; clear H. cbn.
  replace (Z.min (Z.min (rate.lim_last lim) now) now)
    with (Z.min (rate.lim_last lim) now) by lia.
  rewrite E. reflexivity.
Qed.

Lemma service_calls_record_other (S : Type) (e : Event) (w : World S) :
  not_a_call e = true -> service_calls (record e w) = service_calls w.
Proof.
  intros He. unfold service_calls, record. cbn [events].
  rewrite filter_app, length_app.
  destruct e; try discriminate He; cbn; apply Nat.add_0_r.
Qed.

Section RateLimitedCalls.
Import gobreaker.
Context {S : Type}.
Variable svc : @PreamblesvcService S.
Variables (logger : Logger) (otTracer zipkinTracer : Tracer).
Variables (ctx : Context) (req : PreambleRequest).

(** One call of New's endpoint that the limiter rejects, under a Closed
    breaker. *)
Lemma New_rate_limited_call (w : World S) (lim1 : rate.Limiter) :
  state (breaker w) = StateClosed -> expiry (breaker w) = None ->
  rate.Allow (limiter w) (clock w) = (false, lim1) ->
  let run :=
    PreambleEndpoint (New svc logger otTracer zipkinTracer) ctx
      (any_PreambleRequest req) w in
  fst run = Returned (any_nil, ratelimit.ErrLimited) /\
  limiter (snd run) = lim1 /\
  svc_state (snd run) = svc_state w /\
  service_calls (snd run) = service_calls w /\
  breaker (snd run)
    = afterRequest
        (with_counts (breaker w) (Counts_onRequest (counts (breaker w))))
        (generation (breaker w)) false (clock w).
Proof.
  intros Hs He Ha. cbv zeta. rewrite New_endpoint_run. cbv zeta.
  set (w0 := record (EvSpanStart otTracer "sum")
               (record (EvSpanStart zipkinTracer "sum") w)).
  rewrite (@New_guarded_run S svc (New_traced_context ctx) req w0 _ _ _ _ _
             (@beforeRequest_Closed (breaker w) (clock w) Hs He) Ha).
  cbn [fst snd limiter svc_state breaker record set_breaker set_limiter].
  repeat split.
  unfold service_calls. subst w0.
  cbn [events record set_breaker set_limiter].
  rewrite !filter_app, !length_app. cbn. lia.
Qed.

(** A run of calls at one instant at which the limiter has no token:
    each is a failure for the breaker, none reaches the Service. *)
Lemma calls_at_rate_limited (t : Time) (n : nat) :
  forall (w : World S) (lim1 : rate.Limiter) (k : Z),
    state (breaker w) = StateClosed -> expiry (breaker w) = None ->
    default_policy (breaker w) ->
    ConsecutiveFailures (counts (breaker w)) = k -> 0 <= k <= 5 ->
    rate.Allow (limiter w) t = (false, lim1) ->
    let w' :=
      calls_at (repeat t n)
        (PreambleEndpoint (New svc logger otTracer zipkinTracer)) ctx
        (any_PreambleRequest req) w in
    (k + Z.of_nat n <= 5 ->
       state (breaker w') = StateClosed /\
       ConsecutiveFailures (counts (breaker w')) = k + Z.of_nat n /\
       service_calls w' = service_calls w /\
       svc_state w' = svc_state w) /\
    (k + Z.of_nat n = 6 ->
       state (breaker w') = StateOpen /\
       service_calls w' = service_calls w /\
       svc_state w' = svc_state w).
Proof.
  induction n as [|n IH]; intros w lim1 k Hs He Hp Hk Hr Ha.
  - cbn. rewrite Z.add_0_r. split; [|intros Hn; exfalso; lia].
    intros _. repeat split; assumption.
  - cbv zeta. cbn [repeat]. rewrite calls_at_cons. rewrite Nat2Z.inj_succ.
    destruct (@New_rate_limited_call (set_clock t w) lim1 Hs He Ha)
      as (_ & Hl & Hst & Hsc & Hb).
    cbn [clock set_clock breaker] in Hb.
    destruct (@breaker_facts.afterRequest_Closed_failure (breaker w) t k
                Hs He Hp Hk Hr) as (Hp' & Hopen & Hclosed).
    cbv zeta in Hp', Hopen, Hclosed. rewrite <- Hb in Hp', Hopen, Hclosed.
    set (w1 := snd (PreambleEndpoint (New svc logger otTracer zipkinTracer)
                      ctx (any_PreambleRequest req) (set_clock t w))) in *.
    assert (Hcase : k = 5 \/ k < 5) by lia.
    destruct Hcase as [-> | Hlt].
    + split; [intros Hn; exfalso; lia|]. intros Hn.
      assert (n = 0%nat) as -> by lia.
      cbn. split; [apply Hopen; reflexivity|]. split; [exact Hsc | exact Hst].
    + destruct (Hclosed Hlt) as (Hs' & He' & Hk').
      assert (Ha' : rate.Allow (limiter w1) t = (false, lim1)).
      { rewrite Hl. apply (Allow_denied_again _ _ Ha). }
      destruct (IH w1 lim1 (k + 1) Hs' He' Hp' Hk' ltac:(lia) Ha')
        as (C & D).
      cbv zeta in C, D.
      split; intros Hlen.
      * destruct (C ltac:(lia)) as (C1 & C2 & C3 & C4).
        split; [exact C1|]. split; [lia|].
        split; [now rewrite C3 | now rewrite C4].
      * destruct (D ltac:(lia)) as (D1 & D2 & D3).
        split; [exact D1|]. split; [now rewrite D2 | now rewrite D3].
Qed.
End RateLimitedCalls.

(** X11: the breaker of New counts the rejections of the limiter, which
    it wraps, as failures.  Under a Closed breaker with no failure so
    far, six calls at an instant at which the bucket has no token leave
    the breaker Open, though the Service was never called; five leave it
    Closed. *)
Theorem rate_limited_calls_trip_breaker
    (S : Type) (svc : @PreamblesvcService S) (logger : Logger)
    (otTracer zipkinTracer : Tracer) (ctx : Context) (req : PreambleRequest)
    (w : World S) (t : Time) :
  gobreaker.state (breaker w) = gobreaker.StateClosed ->
  gobreaker.expiry (breaker w) = None ->
  default_policy (breaker w) ->
  gobreaker.ConsecutiveFailures (gobreaker.counts (breaker w)) = 0 ->
  fst (rate.Allow (limiter w) t) = false ->
  let after n :=
    calls_at (repeat t n)
      (PreambleEndpoint (New svc logger otTracer zipkinTracer)) ctx
      (any_PreambleRequest req) w in
  gobreaker.state (breaker (after 5%nat)) = gobreaker.StateClosed /\
  gobreaker.state (breaker (after 6%nat)) = gobreaker.StateOpen /\
  service_calls (after 6%nat) = service_calls w /\
  svc_state (after 6%nat) = svc_state w.
Proof.
  intros Hs He Hp Hk Ha. cbv zeta.
  destruct (rate.Allow (limiter w) t) as [ok lim1] eqn:Hallow.
  cbn [fst] in Ha. subst ok.
  destruct (@calls_at_rate_limited S svc logger otTracer zipkinTracer ctx req
              t 5 w lim1 0 Hs He Hp Hk ltac:(lia) Hallow) as [H5 _].
  destruct (@calls_at_rate_limited S svc logger otTracer zipkinTracer ctx req
              t 6 w lim1 0 Hs He Hp Hk ltac:(lia) Hallow) as [_ H6].
  cbv zeta in H5, H6.
  destruct (H5 ltac:(lia)) as (A & _).
  destruct (H6 ltac:(lia)) as (B & C & D).
  repeat split; assumption.
Qed.

Lemma rate_limited_calls_trip_breaker_witness :
  gobreaker.state
    (breaker
       (calls_at (repeat (5 * Second) 6)
          (PreambleEndpoint (New stubPreamblesvcService_Preamble [] "ot" "zk"))
          [] (any_PreambleRequest {| Msg := 5 |}) samples.drained_world))
    = gobreaker.StateOpen.
Proof.
  refine (proj1 (proj2 (@rate_limited_calls_trip_breaker unit
                          stubPreamblesvcService_Preamble [] "ot" "zk" []
                          {| Msg := 5 |} samples.drained_world (5 * Second)
                          _ _ _ _ _)));
    try reflexivity.
  repeat split.
Defined.

(** ** The first call after wiring *)

(** X13: right after New has wired the endpoint, whatever the clock
    shows, the first call of the endpoint set over the stub Service is
    admitted and echoes its message with a nil error, and the Service was
    called exactly once. *)
Theorem New_first_call_echoes
    (S : Type) (logger : Logger) (otTracer zipkinTracer : Tracer)
    (ctx : Context) (msg : int64) (w : World S) :
  exists w',
    Endpoints_Preamble
      (New stubPreamblesvcService_Preamble logger otTracer zipkinTracer)
      ctx msg (New_wiring w)
      = (Returned (msg, None), w') /\
    service_calls w' = Datatypes.S (service_calls w).
Proof.
  unfold Endpoints_Preamble, bind. rewrite New_endpoint_run. cbv zeta.
  set (w0 := record (EvSpanStart otTracer "sum")
               (record (EvSpanStart zipkinTracer "sum") (New_wiring w))).
  destruct (@NewCircuitBreaker_ready serverBreakerSettings (clock w)
              eq_refl eq_refl eq_refl) as (Hs & He & _ & _).
  cbv zeta in Hs, He.
  destruct (@Allow_charged_grant Second 100 (clock w) eq_refl
              (rate.NewLimiter (rate.Every Second) 100) 0 ltac:(lia)
              (NewLimiter_charged Second 100 (clock w))) as [Hok _].
  destruct (rate.Allow (rate.NewLimiter (rate.Every Second) 100) (clock w))
    as [ok lim1] eqn:Ha.
  cbn [fst] in Hok. subst ok.
  rewrite (@New_guarded_run S stubPreamblesvcService_Preamble
             (New_traced_context ctx) {| Msg := msg |} w0 _ _ _ _ _
             (@beforeRequest_Closed (breaker w0) (clock w0) Hs He) Ha).
  cbn [stubPreamblesvcService_Preamble ret Msg fst snd
       assert_PreambleResponse Rs].
  eexists. split; [reflexivity|].
  unfold service_calls. subst w0.
  cbn [events record set_breaker set_limiter New_wiring].
  rewrite !filter_app, !length_app. cbn. lia.
Qed.

(** ** The client side *)

(** X14: on the client the span is started inside the limiter and the
    breaker.  A call of the Preamble endpoint of NewGRPCClient that the
    breaker or the limiter does not admit returns an error that does not
    depend on the transport, and leaves no event: no span is started and
    the call over the wire is not made. *)
Theorem NewGRPCClient_rejections_stay_local
    (S : Type) (transport transport' : @Endpoint S) (otTracer : Tracer)
    (ctx : Context) (request : any) (w : World S) :
  circuitbreaker.is_nil
    (snd (fst (gobreaker.beforeRequest (breaker w) (clock w))))
  && fst (rate.Allow (limiter w) (clock w)) = false ->
  let run := NewGRPCClient_sumEndpoint transport otTracer ctx request w in
  run = NewGRPCClient_sumEndpoint transport' otTracer ctx request w /\
  circuitbreaker.is_nil (outcome_err (fst run)) = false /\
  events (snd run) = events w /\
  svc_state (snd run) = svc_state w.
Proof.
  cbv zeta.
  unfold NewGRPCClient_sumEndpoint, circuitbreaker.Gobreaker,
    circuitbreaker.Execute.
  destruct (gobreaker.beforeRequest (breaker w) (clock w))
    as [[g berr] cb1].
  cbn [fst snd]. destruct berr as [e|]; cbn [circuitbreaker.is_nil andb].
  - intros _. repeat split.
  - unfold ratelimit.NewErroringLimiter. cbn [limiter clock set_breaker].
    destruct (rate.Allow (limiter w) (clock w)) as [ok lim1].
    cbn [fst]. intros ->. repeat split.
Qed.

Lemma NewGRPCClient_rejections_stay_local_witness :
  NewGRPCClient_sumEndpoint samples.succeeding_endpoint "ot" []
    samples.request5 samples.drained_world
    = NewGRPCClient_sumEndpoint samples.failing_endpoint "ot" []
        samples.request5 samples.drained_world /\
  events (snd (NewGRPCClient_sumEndpoint samples.succeeding_endpoint "ot" []
                 samples.request5 samples.tripped_world))
    = events samples.tripped_world.
Proof.
  split.
  - apply (@NewGRPCClient_rejections_stay_local unit
             samples.succeeding_endpoint samples.failing_endpoint "ot" []
             samples.request5 samples.drained_world).
    vm_compute. reflexivity.
  - apply (@NewGRPCClient_rejections_stay_local unit
             samples.succeeding_endpoint samples.failing_endpoint "ot" []
             samples.request5 samples.tripped_world).
    vm_compute. reflexivity.
Defined.
